(** * web-scraper: the freemium gate and the POST /scrape handler

    A shallow embedding of [src/middleware/freemium.ts] (the freemium gate),
    [src/services/simplescraper.ts] ([extractUrl]) and the [POST /scrape]
    handler of [src/server.ts], with the properties the design document
    states about them.

    Conventions.
    - A JavaScript string is a [string]: a sequence of code units below 256,
      which is how Node hands over header values (latin1).
    - A JavaScript number that holds a count, a status code or a time stamp
      is a [Z]; none of the arithmetic below leaves the exactly
      representable integers.
    - A byte is a [Z] in [0, 256); a byte array is a [list Z].
    - [undefined] / [null] of an optional field is [None].
    - A computation that may throw returns a [Result]. *)

From Stdlib Require Import ZArith Strings.String Strings.Ascii List Bool Lia.
From Stdlib Require Import Numbers.DecimalString Numbers.DecimalZ.
From stdpp Require Import base option list strings gmap.

Local Open Scope Z_scope.

(** ** Exceptions *)

Inductive Exn : Type :=
| TypeError (message : string)
| RangeError (message : string)
| Error (message : string).

Inductive Result (A : Type) : Type :=
| Ok (a : A)
| Throw (e : Exn).
Arguments Ok {A} a.
Arguments Throw {A} e.

#[global] Instance Result_ret : MRet Result := fun A a => Ok a.

#[global] Instance Result_bind : MBind Result := fun A B k r =>
  match r with
  | Ok a => k a
  | Throw e => Throw e
  end.

Definition is_ok {A : Type} (r : Result A) : bool :=
  match r with Ok _ => true | Throw _ => false end.

(** ** Strings: [toLowerCase], [trim], number to string *)

Module Js.

(** WhiteSpace and LineTerminator code units below 256
    (TAB, LF, VT, FF, CR, SP, NBSP). *)
Definition isWhiteSpace (c : ascii) : bool :=
  let n := N_of_ascii c in
  ((9 <=? n) && (n <=? 13) || (n =? 32) || (n =? 160))%N.

(** Upper-case letters below 256: A-Z, and U+00C0 .. U+00DE without the
    multiplication sign U+00D7. Their lower-case form is 32 above. *)
Definition isUpper (c : ascii) : bool :=
  let n := N_of_ascii c in
  ((65 <=? n) && (n <=? 90) || (192 <=? n) && (n <=? 222) && negb (n =? 215))%N.

Definition lowerChar (c : ascii) : ascii :=
  if isUpper c then ascii_of_N (N_of_ascii c + 32) else c.

Fixpoint toLowerCase (s : string) : string :=
  match s with
  | EmptyString => EmptyString
  | String c s' => String (lowerChar c) (toLowerCase s')
  end.

Fixpoint trimStart (s : string) : string :=
  match s with
  | EmptyString => EmptyString
  | String c s' => if isWhiteSpace c then trimStart s' else s
  end.

Fixpoint trimEnd (s : string) : string :=
  match s with
  | EmptyString => EmptyString
  | String c s' =>
      match trimEnd s' with
      | EmptyString => if isWhiteSpace c then EmptyString else String c EmptyString
      | t => String c t
      end
  end.

Definition trim (s : string) : string := trimEnd (trimStart s).

(** [String(n)] for an integer [n] (below 1e21 in absolute value, where
    JavaScript prints plain decimal digits). *)
Definition numberToString (n : Z) : string :=
  NilEmpty.string_of_int (Z.to_int n).

(** [a || b] on values that are a string or [undefined]: the empty string
    and [undefined] are falsy. *)
Definition truthy (v : option string) : bool :=
  match v with
  | Some (String _ _) => true
  | _ => false
  end.

Definition or (a b : option string) : option string :=
  if truthy a then a else b.

(** [a ?? b] *)
Definition nullish {A : Type} (a : option A) (b : A) : A :=
  match a with
  | Some v => v
  | None => b
  end.

End Js.

(** ** Byte arrays *)

Module Bytes.

(** The [n] low bytes of [v], most significant first. *)
Fixpoint bigEndian (n : nat) (v : Z) : list Z :=
  match n with
  | O => []
  | S n' => Z.land (Z.shiftr v (8 * Z.of_nat n')) 255 :: bigEndian n' v
  end.

Definition hexDigit (d : Z) : ascii :=
  if d <? 10 then ascii_of_N (Z.to_N (48 + d)) else ascii_of_N (Z.to_N (87 + d)).

Fixpoint hexDigits (bs : list Z) : string :=
  match bs with
  | [] => EmptyString
  | b :: bs' =>
      String (hexDigit (Z.shiftr b 4)) (String (hexDigit (Z.land b 15)) (hexDigits bs'))
  end.

(** ethers' [hexlify] *)
Definition hexlify (bs : list Z) : string := "0x" +:+ hexDigits bs.

(** [new Uint8Array(n)] *)
Definition Uint8Array (n : nat) : list Z := replicate n 0.

(** [dst.set(src, offset)]: a RangeError when [src] does not fit. *)
Definition set (dst src : list Z) (offset : nat) : Result (list Z) :=
  if (offset + length src <=? length dst)%nat
  then Ok (take offset dst ++ src ++ drop (offset + length src) dst)
  else Throw (RangeError "offset is out of bounds").

End Bytes.

(** ** The request, as the gate and the handler read it *)

(** [req.headers[name]]: Node's type is [string | string[] | undefined]. *)
Inductive HeaderValue : Type :=
| HUndefined
| HString (s : string)
| HArray (l : list string).

(** A JSON value of the request body, as far as [typeof] tells them apart. *)
Inductive JsValue : Type :=
| JUndefined
| JNull
| JBoolean (b : bool)
| JNumber (n : Z)
| JString (s : string)
| JObject.

Record Body : Type := mkBody {
  url : JsValue;
  markdown : JsValue;
  html : JsValue;
  clientAddress : JsValue
}.

(** [freeTier] and [freeTierRemaining] are the two optional fields that
    [src/types.ts] adds to Express' [Request]. *)
Record Request : Type := mkRequest {
  x_wallet_address : HeaderValue;       (* req.headers["x-wallet-address"] *)
  ip : option string;                   (* req.ip *)
  remoteAddress : option string;        (* req.socket.remoteAddress *)
  body : option Body;                   (* req.body *)
  freeTier : option bool;
  freeTierRemaining : option Z
}.

Definition set_freeTier (req : Request) (b : bool) : Request :=
  mkRequest (x_wallet_address req) (ip req) (remoteAddress req) (body req)
            (Some b) (freeTierRemaining req).

Definition set_freeTierRemaining (req : Request) (n : Z) : Request :=
  mkRequest (x_wallet_address req) (ip req) (remoteAddress req) (body req)
            (freeTier req) (Some n).

(** ** middleware/freemium.ts *)

Definition FREE_TIER_LIMIT : Z := 2.

(** Where the gate sends the request: [next()] is the route handler,
    [paymentMiddlewareFn(req, res, next)] the x402 middleware. *)
Inductive Route : Type :=
| Next (req : Request)
| PaymentMiddlewareFn (req : Request).

(** [((req.headers["x-wallet-address"] as string) ?? "").toLowerCase().trim()];
    an array has no [toLowerCase]. *)
Definition wallet (req : Request) : Result string :=
  match x_wallet_address req with
  | HUndefined => Ok (Js.trim (Js.toLowerCase ""))
  | HString h => Ok (Js.trim (Js.toLowerCase h))
  | HArray _ => Throw (TypeError "toLowerCase is not a function")
  end.

(** [wallet || req.ip || req.socket.remoteAddress || "unknown"] *)
Definition callerId (req : Request) : Result string :=
  w ← wallet req;
  Ok (Js.nullish (Js.or (Js.or (Js.or (Some w) (ip req)) (remoteAddress req))
                        (Some "unknown"))
                 "unknown").

(** The closure [freemiumGate(paymentMiddlewareFn)] returns, run on the
    module's [walletUsage] map: the map after the call and the route taken. *)
Definition freemiumGate (walletUsage : gmap string Z) (req : Request)
  : Result (gmap string Z * Route) :=
  callerId ← callerId req;
  let used := Js.nullish (walletUsage !! callerId) 0 in
  if used <? FREE_TIER_LIMIT then
    let walletUsage := <[callerId := used + 1]> walletUsage in
    let req := set_freeTier req true in
    let req := set_freeTierRemaining req (FREE_TIER_LIMIT - used - 1) in
    Ok (walletUsage, Next req)
  else
    Ok (walletUsage, PaymentMiddlewareFn req).

(** *** The event loop

    Node runs one job at a time, each to completion. The gate closure has no
    [await]: the whole of it, from [walletUsage.get] to [walletUsage.set],
    runs inside the job that dispatches the request. [walletUsage] is private
    to the module, so no other job reads or writes it. *)
Inductive Job : Type :=
| Dispatch (req : Request)   (* Express dispatches POST /scrape for [req] *)
| Other.                     (* any other job: I/O completions, other routes *)

Definition runJob (walletUsage : gmap string Z) (j : Job)
  : gmap string Z * option (Request * Result Route) :=
  match j with
  | Dispatch req =>
      match freemiumGate walletUsage req with
      | Ok (walletUsage', route) => (walletUsage', Some (req, Ok route))
      | Throw e => (walletUsage, Some (req, Throw e))
      end
  | Other => (walletUsage, None)
  end.

(** The jobs of a schedule run in order; the log has one entry per request. *)
Fixpoint runJobs (walletUsage : gmap string Z) (js : list Job)
  : gmap string Z * list (Request * Result Route) :=
  match js with
  | [] => (walletUsage, [])
  | j :: js' =>
      let '(walletUsage', entry) := runJob walletUsage j in
      let '(walletUsage'', log) := runJobs walletUsage' js' in
      (walletUsage'', match entry with Some e => e :: log | None => log end)
  end.

Definition isFrom (id : string) (req : Request) : bool :=
  match callerId req with
  | Ok id' => bool_decide (id' = id)
  | Throw _ => false
  end.

(** How many requests of a schedule come from [id]. *)
Fixpoint arrivals (id : string) (js : list Job) : nat :=
  match js with
  | [] => O
  | Dispatch req :: js' => ((if isFrom id req then 1 else 0) + arrivals id js')%nat
  | Other :: js' => arrivals id js'
  end.

(** How many requests from [id] a log shows as passed on to the handler for
    free. *)
Fixpoint granted (id : string) (log : list (Request * Result Route)) : nat :=
  match log with
  | [] => O
  | (req, Ok (Next _)) :: log' => ((if isFrom id req then 1 else 0) + granted id log')%nat
  | _ :: log' => granted id log'
  end.

(** ** services/simplescraper.ts *)

Module Simplescraper.

Record Metadata : Type := mkMetadata {
  title : option string;
  description : option string;
  word_count : option Z
}.

(** [SimplescraperExtractResult] *)
Record SimplescraperExtractResult : Type := mkResult {
  id : string;
  url : string;
  status : string;
  date_scraped : string;
  metadata : Metadata;
  markdown : option string;
  html : option string;
  data : option (list JsValue);
  screenshots : option (list (string * string))
}.

(** The body of the upstream answer, read through the two interfaces the
    code casts it to: [error?.message] of a [SimplescraperError], and the
    fields of a [SimplescraperExtractResult]. *)
Record AxiosData : Type := mkAxiosData {
  error_message : option string;
  fields : SimplescraperExtractResult
}.

(** What is thrown: [err instanceof Error] with its message, or anything
    else. *)
Inductive Thrown : Type :=
| ErrorInstance (message : string)
| NotAnError.

(** [await axios.post(...)] with [validateStatus: () => true]: it resolves
    with any HTTP status, and rejects on a network failure or a timeout. *)
Inductive AxiosOutcome : Type :=
| Resolved (status : Z) (data : AxiosData)
| Rejected (err : Thrown).

Record SimplescraperExtractOptions : Type := mkOptions {
  opt_markdown : JsValue;
  opt_html : JsValue
}.

Record AxiosRequest : Type := mkAxiosRequest {
  endpoint : string;
  req_url : string;
  req_markdown : JsValue;
  req_html : JsValue;
  req_screenshot : bool;
  authorization : string;
  timeout : Z
}.

Definition BASE_URL : string := "https://api.simplescraper.io/v1".

(** [v ?? false] *)
Definition orFalse (v : JsValue) : JsValue :=
  match v with
  | JUndefined | JNull => JBoolean false
  | _ => v
  end.

(** The value [extractUrl] resolves to. *)
Inductive ExtractOutcome : Type :=
| ok_true (data : SimplescraperExtractResult)
| ok_false (error : string) (status : option Z).

(** The request [extractUrl] posts. *)
Definition extractRequest (apiKey : option string) (url : string)
    (options : SimplescraperExtractOptions) : AxiosRequest :=
  mkAxiosRequest (BASE_URL +:+ "/extract") url
    (orFalse (opt_markdown options)) (orFalse (opt_html options)) false
    ("Bearer " +:+ Js.nullish apiKey "") 60000.

(** [extractUrl(url, options)], given [process.env.SIMPLESCRAPER_API_KEY] and
    the upstream's answer to the one request it may send. *)
Definition extractUrl (apiKey : option string) (post : AxiosRequest -> AxiosOutcome)
    (url : string) (options : SimplescraperExtractOptions) : ExtractOutcome :=
  if negb (Js.truthy apiKey) then
    ok_false "SIMPLESCRAPER_API_KEY not configured" None
  else
    match post (extractRequest apiKey url options) with
    | Resolved status data =>
        if status >=? 400 then
          ok_false (Js.nullish (error_message data) ("HTTP " +:+ Js.numberToString status))
                   (Some status)
        else
          ok_true (fields data)
    | Rejected err =>
        let message :=
          match err with
          | ErrorInstance m => m
          | NotAnError => "Unknown error"
          end in
        ok_false message None
    end.

End Simplescraper.

(** ** ethers *)

Module ethers.

(** [new Wallet(key)]: the key and the address derived from it. *)
Record Wallet : Type := mkWallet {
  privateKey : string;
  address : string
}.

(** The functions of the ethers library the server calls. They are not part
    of this repository; the development is parametric in them.
    [signMessage w m] stands for [getBytes(await w.signMessage(m))], and
    [verifyMessage m sig] for the address ethers recovers from a signature of
    the message [m]. *)
Class Library : Type := {
  newWallet : string -> Result Wallet;
  id : string -> string;
  keccak256 : list Z -> list Z;
  getAddress : string -> option Z;
  signMessage : Wallet -> list Z -> Result (list Z);
  verifyMessage : list Z -> list Z -> option string
}.

(** What the library promises about a signature: it is [r], [s] and [v],
    65 bytes, and the signer's address is recovered from it. *)
Class Sound (L : Library) : Prop := {
  signMessage_length :
    forall w m sig, signMessage w m = Ok sig -> length sig = 65%nat;
  signMessage_verify :
    forall w m sig, signMessage w m = Ok sig -> verifyMessage m sig = Some (address w)
}.

(** A collision of the digest [h]: two different texts with one digest. *)
Definition collision (h : string -> string) (a b : string) : Prop :=
  a <> b /\ h a = h b.

(** *** [AbiCoder.defaultAbiCoder().encode] on the static types the server
    uses, after the Solidity ABI: every value is one 32-byte word, an
    integer big-endian, an address right-aligned. A value out of the type's
    range and a text that is no address make [encode] throw. *)
Module AbiCoder.

Inductive ParamType : Type :=
| uint (bits : Z)
| address.

Inductive Value : Type :=
| BigInt (n : Z)
| Text (s : string).

Definition word (v : Z) : list Z := Bytes.bigEndian 32 v.

Definition encodeValue `{Library} (t : ParamType) (v : Value) : Result (list Z) :=
  match t, v with
  | uint bits, BigInt n =>
      if (0 <=? n) && (n <? 2 ^ bits) then Ok (word n)
      else Throw (Error "value out-of-bounds")
  | address, Text s =>
      match getAddress s with
      | Some a => Ok (word a)
      | None => Throw (Error "invalid address")
      end
  | _, _ => Throw (Error "invalid value for type")
  end.

Fixpoint encode `{Library} (types : list ParamType) (values : list Value)
  : Result (list Z) :=
  match types, values with
  | [], [] => Ok []
  | t :: types', v :: values' =>
      w ← encodeValue t v;
      rest ← encode types' values';
      Ok (w ++ rest)
  | _, _ => Throw (Error "types/values length mismatch")
  end.

End AbiCoder.

End ethers.

(** ** server.ts *)

Module Server.

Import ethers.

(** The module-level constants the handler reads. [agentWallet] and
    [NUMERIC_AGENT_ID] are [null] when their variable is not set;
    [CHAIN_ID] is the result of [parseInt], [None] for NaN. *)
Record Config : Type := mkConfig {
  agentWallet : option Wallet;
  IDENTITY_REGISTRY : string;
  CHAIN_ID : option Z;
  NUMERIC_AGENT_ID : option Z;
  SIMPLESCRAPER_API_KEY : option string
}.

(** [process.env.AGENT_PRIVATE_KEY ? new Wallet(...) : null], evaluated once
    when the module is loaded. *)
Definition loadAgentWallet `{Library} (AGENT_PRIVATE_KEY : option string)
  : Result (option Wallet) :=
  if Js.truthy AGENT_PRIVATE_KEY then
    w ← newWallet (Js.nullish AGENT_PRIVATE_KEY "");
    Ok (Some w)
  else Ok None.

Record FeedbackAuth : Type := mkFeedbackAuth {
  agentId : string;
  taskId : string
}.

(** [payload]: the fields of the result, and the two the handler may add. *)
Record Payload : Type := mkPayload {
  result : Simplescraper.SimplescraperExtractResult;
  feedbackAuthContract : option string;
  feedbackAuth : option FeedbackAuth
}.

Inductive Json : Type :=
| MissingField (error : string) (optional : list string)
| ErrorJson (error : string)
| PayloadJson (payload : Payload).

(** [res.status(code).json(value)]; [res.json(value)] leaves the status at
    200. *)
Record Response : Type := mkResponse {
  status : Z;
  json : Json
}.

(** One [console.error(label, err)]. *)
Definition LogLine : Type := (string * Exn)%type.

(** [const url = typeof body?.url === "string" ? body.url.trim() : undefined] *)
Definition urlOf (req : Request) : option string :=
  match body req with
  | Some b =>
      match url b with
      | JString s => Some (Js.trim s)
      | _ => None
      end
  | None => None
  end.

(** [const clientAddress = (typeof body?.clientAddress === "string" ? ... : null)
       || (typeof req.headers["x-wallet-address"] === "string" ? ... : null)] *)
Definition clientAddressOf (req : Request) : option string :=
  Js.or
    (match body req with
     | Some b =>
         match clientAddress b with
         | JString s => Some (Js.trim s)
         | _ => None
         end
     | None => None
     end)
    (match x_wallet_address req with
     | HString h => Some (Js.trim h)
     | _ => None
     end).

(** [id(url + Date.now())] *)
Definition taskIdOf `{Library} (url : string) (now : Z) : string :=
  id (url +:+ Js.numberToString now).

(** [BigInt(CHAIN_ID)]: a RangeError on NaN. *)
Definition BigInt (n : option Z) : Result Z :=
  match n with
  | Some v => Ok v
  | None => Throw (RangeError "The number NaN cannot be converted to a BigInt")
  end.

Definition indexLimit : Z := 1000.

(** [BigInt(Math.floor(Date.now() / 1000) + 3600)] *)
Definition expiryOf (now : Z) : Z := now / 1000 + 3600.

(** The seven values, in the order of the array literal. *)
Definition authTypes : list AbiCoder.ParamType :=
  [AbiCoder.uint 256; AbiCoder.address; AbiCoder.uint 64; AbiCoder.uint 256;
   AbiCoder.uint 256; AbiCoder.address; AbiCoder.address].

Definition authValues (cfg : Config) (w : Wallet) (numericAgentId : Z)
    (clientAddress : string) (expiry chainId : Z) : list AbiCoder.Value :=
  [AbiCoder.BigInt numericAgentId; AbiCoder.Text clientAddress;
   AbiCoder.BigInt indexLimit; AbiCoder.BigInt expiry; AbiCoder.BigInt chainId;
   AbiCoder.Text (IDENTITY_REGISTRY cfg); AbiCoder.Text (address w)].

(** The encoded structure, spelled out: seven words of 32 bytes, in the
    order of [authTypes]; the addresses are given by their value. *)
Definition authWords (numericAgentId aClient expiry chainId aRegistry aAgent : Z) : list Z :=
  Bytes.bigEndian 32 numericAgentId ++ Bytes.bigEndian 32 aClient ++
  Bytes.bigEndian 32 indexLimit ++ Bytes.bigEndian 32 expiry ++
  Bytes.bigEndian 32 chainId ++ Bytes.bigEndian 32 aRegistry ++
  Bytes.bigEndian 32 aAgent.

(** The body of [if (NUMERIC_AGENT_ID !== null) { ... }], up to the value
    assigned to [payload.feedbackAuthContract]. [now] is what [Date.now()]
    returns there. *)
Definition contractAuth `{Library} (cfg : Config) (w : Wallet)
    (numericAgentId : Z) (clientAddress : string) (now : Z) : Result string :=
  let expiry := expiryOf now in
  chainId ← BigInt (CHAIN_ID cfg);
  encodedStruct ← AbiCoder.encode authTypes
                    (authValues cfg w numericAgentId clientAddress expiry chainId);
  let structHash := keccak256 encodedStruct in
  contractSig ← signMessage w structHash;
  let authBytes := Bytes.Uint8Array (224 + 65) in
  authBytes ← Bytes.set authBytes encodedStruct 0;
  authBytes ← Bytes.set authBytes contractSig 224;
  Ok (Bytes.hexlify authBytes).

(** The [try] block after a successful extraction, up to [payload].
    [Date_now k] is the value of the [k]-th call of [Date.now()]. *)
Definition buildPayload `{Library} (cfg : Config) (req : Request) (url : string)
    (data : Simplescraper.SimplescraperExtractResult) (Date_now : nat -> Z)
  : Result Payload :=
  let payload := mkPayload data None None in
  let clientAddress := clientAddressOf req in
  match agentWallet cfg, clientAddress with
  | Some w, Some (String _ _ as clientAddress) =>
      let taskId := taskIdOf url (Date_now 0%nat) in
      payload ←
        match NUMERIC_AGENT_ID cfg with
        | Some numericAgentId =>
            blob ← contractAuth cfg w numericAgentId clientAddress (Date_now 1%nat);
            Ok (mkPayload (result payload) (Some blob) (feedbackAuth payload))
        | None => Ok payload
        end;
      Ok (mkPayload (result payload) (feedbackAuthContract payload)
                    (Some (mkFeedbackAuth (address w) taskId)))
  | _, _ => Ok payload
  end.

(** The answer of the [catch] block. *)
Definition internalError : Response :=
  mkResponse 500 (ErrorJson "Internal server error during scrape.").

(** The handler from the point where [await extractUrl(...)] resolves:
    the response sent and the lines logged. *)
Definition resume `{Library} (cfg : Config) (req : Request) (url : string)
    (extracted : Simplescraper.ExtractOutcome) (Date_now : nat -> Z)
  : Response * list LogLine :=
  match extracted with
  | Simplescraper.ok_false error status =>
      (mkResponse (Js.nullish status 503) (ErrorJson error), [])
  | Simplescraper.ok_true data =>
      match buildPayload cfg req url data Date_now with
      | Ok payload => (mkResponse 200 (PayloadJson payload), [])
      | Throw err => (internalError, [("[scrape] unexpected error:", err)])
      end
  end.

(** The route handler of [POST /scrape]: it answers at once, or it calls
    [extractUrl] and goes on when that resolves. *)
Inductive Handler : Type :=
| Responded (res : Response)
| AwaitExtractUrl (url : string) (options : Simplescraper.SimplescraperExtractOptions)
    (k : Simplescraper.ExtractOutcome -> (nat -> Z) -> Response * list LogLine).

Definition scrape `{Library} (cfg : Config) (req : Request) : Handler :=
  match urlOf req, body req with
  | Some (String _ _ as url), Some b =>
      AwaitExtractUrl url (Simplescraper.mkOptions (markdown b) (html b))
                      (resume cfg req url)
  | _, _ =>
      Responded (mkResponse 400
                   (MissingField "Missing required field: url"
                                 ["markdown"; "html"; "clientAddress"]))
  end.

(** The handler run against an upstream and a clock. *)
Definition runHandler (h : Handler) (apiKey : option string)
    (post : Simplescraper.AxiosRequest -> Simplescraper.AxiosOutcome) (Date_now : nat -> Z)
  : Response * list LogLine :=
  match h with
  | Responded res => (res, [])
  | AwaitExtractUrl url options k =>
      k (Simplescraper.extractUrl apiKey post url options) Date_now
  end.

(** How many times a handler calls [extractUrl]. *)
Definition extractCalls (h : Handler) : nat :=
  match h with
  | Responded _ => 0%nat
  | AwaitExtractUrl _ _ _ => 1%nat
  end.

(** [app.post("/scrape", freemiumGate(x402Middleware), handler)]: the gate
    runs first; it calls the handler, or leaves the exchange to the x402
    middleware. *)
Inductive Exchange : Type :=
| Handled (req : Request) (h : Handler)
| LeftToPayment (req : Request).

Definition postScrape `{Library} (cfg : Config) (walletUsage : gmap string Z)
    (req : Request) : Result (gmap string Z * Exchange) :=
  '(walletUsage, route) ← freemiumGate walletUsage req;
  match route with
  | Next req => Ok (walletUsage, Handled req (scrape cfg req))
  | PaymentMiddlewareFn req => Ok (walletUsage, LeftToPayment req)
  end.

(** Whether a response carries an attestation field. *)
Definition hasAttestation (res : Response) : bool :=
  match json res with
  | PayloadJson p =>
      match feedbackAuth p, feedbackAuthContract p with
      | None, None => false
      | _, _ => true
      end
  | _ => false
  end.

End Server.

(** ** A small library instance

    Used to run the definitions on concrete requests: addresses are "0x" and
    forty hexadecimal digits (no checksum), the one wallet that signs is
    [agent], and digests and signatures are placeholders of the right
    length. *)

Module Sample.

Import ethers.

Definition hexValue (c : ascii) : option Z :=
  let n := Z.of_N (N_of_ascii c) in
  if (48 <=? n) && (n <=? 57) then Some (n - 48)
  else if (97 <=? n) && (n <=? 102) then Some (n - 87)
  else if (65 <=? n) && (n <=? 70) then Some (n - 55)
  else None.

Fixpoint hexNumber (s : string) (acc : Z) : option Z :=
  match s with
  | EmptyString => Some acc
  | String c s' =>
      match hexValue c with
      | Some d => hexNumber s' (16 * acc + d)
      | None => None
      end
  end.

Definition parseAddress (s : string) : option Z :=
  match s with
  | String "0" (String "x" digits) =>
      if (String.length digits =? 40)%nat then hexNumber digits 0 else None
  | _ => None
  end.

Definition agentAddress : string := "0x00000000000000000000000000000000000000a1".

Definition agent : Wallet := mkWallet "0x01" agentAddress.

Definition sign (w : Wallet) (m : list Z) : Result (list Z) :=
  if String.eqb (address w) agentAddress then Ok (replicate 65 7)
  else Throw (Error "unknown signer").

Definition library : Library := {|
  newWallet := fun key => Ok (mkWallet key agentAddress);
  id := fun text => "0x" +:+ text;
  keccak256 := fun bs => Bytes.bigEndian 32 (Z.of_nat (length bs));
  getAddress := parseAddress;
  signMessage := sign;
  verifyMessage := fun _ _ => Some agentAddress
|}.

(** The same library with a signer that fails. *)
Definition failingSigner : Library := {|
  newWallet := fun key => Ok (mkWallet key agentAddress);
  id := fun text => "0x" +:+ text;
  keccak256 := fun bs => Bytes.bigEndian 32 (Z.of_nat (length bs));
  getAddress := parseAddress;
  signMessage := fun _ _ => Throw (Error "signing failed");
  verifyMessage := fun _ _ => Some agentAddress
|}.

Definition registry : string := "0x8004AA63c570c570eBF15376c0dB199918BFe9Fb".

Definition client : string := "0x00000000000000000000000000000000000000c7".

(** A process with a signer key and [AGENT_ID=1]. *)
Definition onChain : Server.Config :=
  Server.mkConfig (Some agent) registry (Some 84532) (Some 1) (Some "key").

(** A process with a signer key and no [AGENT_ID]. *)
Definition offChain : Server.Config :=
  Server.mkConfig (Some agent) registry (Some 84532) None (Some "key").

(** A process without a signer key. *)
Definition unsigned : Server.Config :=
  Server.mkConfig None registry (Some 84532) (Some 1) (Some "key").

Definition bodyOf (url clientAddress : JsValue) : Body :=
  mkBody url JUndefined JUndefined clientAddress.

(** A request as Express hands it to the gate. *)
Definition request (header : HeaderValue) (b : option Body) : Request :=
  mkRequest header (Some "203.0.113.9") (Some "203.0.113.9") b None None.

Definition page : Simplescraper.SimplescraperExtractResult :=
  Simplescraper.mkResult "r1" "https://example.com" "completed" "2026-01-01"
    (Simplescraper.mkMetadata (Some "Example") None (Some 17)) None None None None.

Definition clock (k : nat) : Z := 1700000000000 + Z.of_nat k.

End Sample.

(** ** mcp.ts: the "scrape" tool *)

Module Mcp.

Import Simplescraper.



(** The options the tool passes on, after the schema's
    [z.boolean().optional().default(true)] for [markdown] and
    [.default(false)] for [html]. *)
Definition toolOptions (markdown html : option bool) : SimplescraperExtractOptions :=
  mkOptions (JBoolean (Js.nullish markdown true)) (JBoolean (Js.nullish html false)).



End Mcp.

(** ** The handler of [POST /scrape] without the feedback authorization
    (the second document of [src/mcp.ts]) *)

Module Plain.

Import Server.

Definition resume (extracted : Simplescraper.ExtractOutcome) (Date_now : nat -> Z)
  : Response * list LogLine :=
  match extracted with
  | Simplescraper.ok_false error status =>
      (mkResponse (Js.nullish status 503) (ErrorJson error), [])
  | Simplescraper.ok_true data =>
      (mkResponse 200 (PayloadJson (mkPayload data None None)), [])
  end.

Definition scrape (req : Request) : Handler :=
  match urlOf req, body req with
  | Some (String _ _ as url), Some b =>
      AwaitExtractUrl url (Simplescraper.mkOptions (markdown b) (html b)) resume
  | _, _ =>
      Responded (mkResponse 400
                   (MissingField "Missing required field: url" ["markdown"; "html"]))
  end.

End Plain.

(** ** scripts/generate-agent-card.ts: the CID to register *)

Module AgentCard.

(** A function that may end the process with [process.exit(code)]. *)
Inductive Outcome (A : Type) : Type :=
| Return (a : A)
| Exit (code : Z).
Arguments Return {A} a.
Arguments Exit {A} code.

(** [args.indexOf(x)]: the first position of [x], or -1. *)
Fixpoint indexOf (x : string) (args : list string) : Z :=
  match args with
  | [] => -1
  | y :: args' =>
      if String.eqb y x then 0
      else let i := indexOf x args' in if i <? 0 then -1 else 1 + i
  end.

(** [args[i]] *)
Definition at_index (args : list string) (i : Z) : option string :=
  if i <? 0 then None else args !! Z.to_nat i.

(** [s.startsWith(p)] *)
Definition startsWith (p s : string) : bool := String.prefix p s.

(** [s.slice(n)] for [n >= 0] *)
Fixpoint slice (n : nat) (s : string) : string :=
  match n, s with
  | O, _ => s
  | S n', String _ s' => slice n' s'
  | S _, EmptyString => EmptyString
  end.

Definition CID_FILE : string := "agent-card-cid.txt".

(** [getCidForRegister()], given [process.argv.slice(2)] and the content of
    [CID_FILE] when the file exists. *)
Definition getCidForRegister (args : list string) (cidFile : option string)
  : Outcome string :=
  let registerIdx := indexOf "--register" args in
  let nextArg := at_index args (registerIdx + 1) in
  if Js.truthy nextArg && negb (startsWith "--" (Js.nullish nextArg "")) then
    let nextArg := Js.nullish nextArg "" in
    Return (if startsWith "cid=" nextArg then slice 4 nextArg else nextArg)
  else
    match cidFile with
    | Some text => Return (Js.trim text)
    | None => Exit 1
    end.

End AgentCard.

(** * Properties *)

(** ** Strings *)

Module JsFacts.

Import Js.

Lemma lowerChar_isWhiteSpace c : isWhiteSpace (lowerChar c) = isWhiteSpace c.
Proof. destruct c as [[] [] [] [] [] [] [] []]; reflexivity. Qed.

Lemma toLowerCase_trimStart s :
  trimStart (toLowerCase s) = toLowerCase (trimStart s).
Proof.
  induction s as [|c s IH]; simpl; [reflexivity|].
  rewrite lowerChar_isWhiteSpace.
  destruct (isWhiteSpace c); [exact IH | reflexivity].
Qed.

Lemma toLowerCase_trimEnd s :
  trimEnd (toLowerCase s) = toLowerCase (trimEnd s).
Proof.
  induction s as [|c s IH]; simpl; [reflexivity|].
  rewrite IH, lowerChar_isWhiteSpace.
  destruct (trimEnd s); simpl; [|reflexivity].
  destruct (isWhiteSpace c); reflexivity.
Qed.

(** Lower-casing and trimming commute. *)
Lemma toLowerCase_trim s : trim (toLowerCase s) = toLowerCase (trim s).
Proof. unfold trim. rewrite toLowerCase_trimStart. apply toLowerCase_trimEnd. Qed.

Lemma toLowerCase_empty s : toLowerCase s = "" <-> s = "".
Proof. destruct s; simpl; split; congruence. Qed.

Lemma numberToString_inj a b : numberToString a = numberToString b -> a = b.
Proof.
  unfold numberToString. intros E.
  apply to_int_inj.
  pose proof (NilEmpty.isi (Z.to_int a)) as Ha.
  pose proof (NilEmpty.isi (Z.to_int b)) as Hb.
  rewrite E in Ha. congruence.
Qed.

Lemma append_inj_r (p a b : string) : p +:+ a = p +:+ b -> a = b.
Proof.
  induction p as [|c p IH]; simpl; intros E; [exact E|].
  apply IH. injection E. auto.
Qed.

Lemma truthy_Some s : truthy (Some s) = true <-> s <> "".
Proof. destruct s; simpl; split; congruence. Qed.

Lemma or_truthy a b : truthy a = true -> or a b = a.
Proof. unfold or. intros ->. reflexivity. Qed.

Lemma or_falsy a b : truthy a = false -> or a b = b.
Proof. unfold or. intros ->. reflexivity. Qed.

End JsFacts.

(** ** The freemium gate *)

Module GateFacts.

(** The identity the gate settles on, for a header that is a string or
    absent. *)
Lemma callerId_string req :
  (forall l, x_wallet_address req <> HArray l) ->
  exists w, wallet req = Ok w /\
    w = Js.toLowerCase (Js.trim (match x_wallet_address req with
                                 | HString h => h
                                 | _ => ""
                                 end)) /\
    callerId req =
      Ok (Js.nullish (Js.or (Js.or (Js.or (Some w) (ip req)) (remoteAddress req))
                            (Some "unknown")) "unknown").
Proof.
  intros Hh. unfold callerId, wallet.
  destruct (x_wallet_address req) as [|h|l].
  - eexists; split; [reflexivity|]. split; reflexivity.
  - eexists; split; [reflexivity|]. split; [apply JsFacts.toLowerCase_trim | reflexivity].
  - destruct (Hh l); reflexivity.
Qed.


Lemma callerId_nonempty req id : callerId req = Ok id -> id <> "".
Proof.
  unfold callerId. destruct (wallet req) as [w|e]; simpl; [|discriminate].
  intros [= <-].
  unfold Js.or.
  destruct w; simpl.
  - destruct (ip req) as [[|]|]; simpl;
      destruct (remoteAddress req) as [[|]|]; simpl; discriminate.
  - discriminate.
Qed.

(** One run of the gate, by the count stored for the caller. *)
Lemma freemiumGate_unfold walletUsage req id :
  callerId req = Ok id ->
  freemiumGate walletUsage req =
    let used := Js.nullish (walletUsage !! id) 0 in
    if used <? FREE_TIER_LIMIT then
      Ok (<[id := used + 1]> walletUsage,
          Next (set_freeTierRemaining (set_freeTier req true)
                                      (FREE_TIER_LIMIT - used - 1)))
    else Ok (walletUsage, PaymentMiddlewareFn req).
Proof. unfold freemiumGate. intros ->. reflexivity. Qed.

Lemma freemiumGate_throw walletUsage req e :
  callerId req = Throw e -> freemiumGate walletUsage req = Throw e.
Proof. unfold freemiumGate. intros ->. reflexivity. Qed.

Lemma isFrom_true id req : isFrom id req = true <-> callerId req = Ok id.
Proof.
  unfold isFrom. destruct (callerId req) as [id'|e].
  - rewrite bool_decide_eq_true. split; congruence.
  - split; discriminate.
Qed.

(** The count stored for [id] after a schedule: one more per request from
    [id], up to the limit. *)
Lemma runJobs_usage js : forall walletUsage id,
  Js.nullish ((runJobs walletUsage js).1 !! id) 0 =
    let used := Js.nullish (walletUsage !! id) 0 in
    Z.max used (Z.min (used + Z.of_nat (arrivals id js)) FREE_TIER_LIMIT).
Proof.
  induction js as [|j js IH]; intros walletUsage id; cbn zeta.
  - simpl. lia.
  - destruct j as [req|]; [|simpl; destruct (runJobs walletUsage js) eqn:E;
                            simpl; specialize (IH walletUsage id); rewrite E in IH; exact IH].
    cbn [runJobs runJob arrivals].
    destruct (callerId req) as [id'|e] eqn:Hid.
    + rewrite (freemiumGate_unfold _ _ _ Hid). cbn zeta.
      unfold isFrom. rewrite Hid.
      destruct (Z.ltb_spec (Js.nullish (walletUsage !! id') 0) FREE_TIER_LIMIT) as [Hlt|Hge].
      * destruct (runJobs (<[id':=_]> walletUsage) js) eqn:E.
        specialize (IH (<[id':=Js.nullish (walletUsage !! id') 0 + 1]> walletUsage) id).
        rewrite E in IH. simpl in *. rewrite IH.
        case_bool_decide as Heq.
        -- subst id'. rewrite lookup_insert_eq. simpl. lia.
        -- rewrite lookup_insert_ne by done. simpl. lia.
      * destruct (runJobs walletUsage js) eqn:E.
        specialize (IH walletUsage id). rewrite E in IH. simpl in *. rewrite IH.
        case_bool_decide as Heq; [subst id'|]; lia.
    + rewrite (freemiumGate_throw _ _ _ Hid).
      unfold isFrom. rewrite Hid.
      destruct (runJobs walletUsage js) eqn:E.
      specialize (IH walletUsage id). rewrite E in IH. simpl in *. exact IH.
Qed.

(** The number of free passes [id] gets in a schedule: one per request, as
    long as the stored count is below the limit. *)
Lemma runJobs_granted js : forall walletUsage id,
  Z.of_nat (granted id (runJobs walletUsage js).2) =
    let used := Js.nullish (walletUsage !! id) 0 in
    Z.max 0 (Z.min (Z.of_nat (arrivals id js)) (FREE_TIER_LIMIT - used)).
Proof.
  induction js as [|j js IH]; intros walletUsage id; cbn zeta.
  - simpl. lia.
  - destruct j as [req|]; [|simpl; destruct (runJobs walletUsage js) eqn:E;
                            simpl; specialize (IH walletUsage id); rewrite E in IH; exact IH].
    cbn [runJobs runJob arrivals].
    destruct (callerId req) as [id'|e] eqn:Hid.
    + rewrite (freemiumGate_unfold _ _ _ Hid). cbn zeta.
      destruct (Z.ltb_spec (Js.nullish (walletUsage !! id') 0) FREE_TIER_LIMIT) as [Hlt|Hge].
      * destruct (runJobs (<[id':=_]> walletUsage) js) eqn:E.
        specialize (IH (<[id':=Js.nullish (walletUsage !! id') 0 + 1]> walletUsage) id).
        rewrite E in IH. cbn [granted fst snd] in *.
        unfold isFrom in *. rewrite Hid.
        case_bool_decide as Heq.
        -- subst id'. rewrite lookup_insert_eq in IH. simpl in IH. lia.
        -- rewrite lookup_insert_ne in IH by done. simpl in IH. lia.
      * destruct (runJobs walletUsage js) eqn:E.
        specialize (IH walletUsage id). rewrite E in IH. cbn [granted fst snd] in *.
        unfold isFrom. rewrite Hid.
        case_bool_decide as Heq; [subst id'|]; lia.
    + rewrite (freemiumGate_throw _ _ _ Hid).
      destruct (runJobs walletUsage js) eqn:E.
      specialize (IH walletUsage id). rewrite E in IH. cbn [granted fst snd] in *.
      unfold isFrom. rewrite Hid. lia.
Qed.

End GateFacts.

Module Gate.

Import GateFacts.

Lemma arrivals_Permutation id (js js' : list Job) :
  js ≡ₚ js' -> arrivals id js = arrivals id js'.
Proof.
  induction 1 as [|j js js' _ IH|j1 j2 js|js1 js2 js3 _ IH1 _ IH2]; simpl.
  - reflexivity.
  - destruct j; rewrite IH; reflexivity.
  - destruct j1, j2; lia.
  - congruence.
Qed.

(** C7. Identity resolution, on a wallet header that is a string or absent:
    the trimmed header in lower case when that is not empty, else [req.ip],
    else the socket's peer address, else "unknown"; an identity is always
    produced and it is never empty. *)
Theorem identity_resolution_total (req : Request) :
  (forall l, x_wallet_address req <> HArray l) ->
  let h := Js.trim (match x_wallet_address req with HString h => h | _ => "" end) in
  exists id,
    callerId req = Ok id /\ id <> "" /\
    (h <> "" -> id = Js.toLowerCase h) /\
    (h = "" -> Js.truthy (ip req) = true -> ip req = Some id) /\
    (h = "" -> Js.truthy (ip req) = false -> Js.truthy (remoteAddress req) = true ->
       remoteAddress req = Some id) /\
    (h = "" -> Js.truthy (ip req) = false -> Js.truthy (remoteAddress req) = false ->
       id = "unknown").
Proof.
  intros Hh h.
  destruct (callerId_string req Hh) as (w & _ & Hw & Hid). fold h in Hw.
  eexists. split; [exact Hid|]. split; [exact (callerId_nonempty _ _ Hid)|].
  assert (Hemp : h = "" -> w = "") by (intros E; rewrite Hw, E; reflexivity).
  assert (Hne : h <> "" -> Js.truthy (Some w) = true).
  { intros E. apply JsFacts.truthy_Some. rewrite Hw.
    intros C. apply E. apply JsFacts.toLowerCase_empty. exact C. }
  repeat split.
  - intros E. rewrite !(JsFacts.or_truthy (Some w)) by (apply Hne; exact E).
    exact Hw.
  - intros E Hip. rewrite (Hemp E).
    rewrite (JsFacts.or_falsy (Some "")) by reflexivity.
    rewrite !(JsFacts.or_truthy (ip req)) by exact Hip.
    destruct (ip req); [reflexivity | discriminate].
  - intros E Hip Hra. rewrite (Hemp E).
    rewrite (JsFacts.or_falsy (Some "")) by reflexivity.
    rewrite (JsFacts.or_falsy (ip req)) by exact Hip.
    rewrite (JsFacts.or_truthy (remoteAddress req)) by exact Hra.
    destruct (remoteAddress req); [reflexivity | discriminate].
  - intros E Hip Hra. rewrite (Hemp E).
    rewrite (JsFacts.or_falsy (Some "")) by reflexivity.
    rewrite (JsFacts.or_falsy (ip req)) by exact Hip.
    rewrite (JsFacts.or_falsy (remoteAddress req)) by exact Hra.
    reflexivity.
Qed.

Lemma identity_resolution_total_witness :
  exists id,
    callerId (Sample.request (HString "  0xABC ") None) = Ok id /\ id <> "" /\
    id = "0xabc".
Proof.
  destruct (identity_resolution_total (Sample.request (HString "  0xABC ") None))
    as (id & Hid & Hne & Hw & _).
  - intros l. discriminate.
  - exists id. split; [exact Hid|]. split; [exact Hne|].
    apply Hw. discriminate.
Defined.

(** C1, as the gate has it. For the identity [id] of a request and the count
    [used] stored for it (0 when unseen): when [used] is below the limit the
    gate stores [used + 1], sets [freeTier] and
    [freeTierRemaining = limit - used - 1] on the request and calls the
    handler; otherwise it leaves the map and the request as they are (no
    remaining count is reported) and calls the payment middleware. After any
    schedule run from the empty map, the next request of [id] goes to the
    handler when fewer than [limit] requests of [id] came before it, and to
    the payment middleware otherwise. *)
Theorem gate_check_and_consume (walletUsage : gmap string Z) (req : Request) (id : string) :
  callerId req = Ok id ->
  let used := Js.nullish (walletUsage !! id) 0 in
  (used < FREE_TIER_LIMIT ->
     freemiumGate walletUsage req =
       Ok (<[id := used + 1]> walletUsage,
           Next (mkRequest (x_wallet_address req) (ip req) (remoteAddress req) (body req)
                           (Some true) (Some (FREE_TIER_LIMIT - used - 1))))) /\
  (FREE_TIER_LIMIT <= used ->
     freemiumGate walletUsage req = Ok (walletUsage, PaymentMiddlewareFn req)) /\
  (forall js : list Job,
     let before := (runJobs ∅ js).1 in
     ((Z.of_nat (arrivals id js) < FREE_TIER_LIMIT ->
         exists after req', freemiumGate before req = Ok (after, Next req')) /\
      (FREE_TIER_LIMIT <= Z.of_nat (arrivals id js) ->
         freemiumGate before req = Ok (before, PaymentMiddlewareFn req)))).
Proof.
  intros Hid used. split; [|split].
  - intros Hlt. rewrite (freemiumGate_unfold _ _ _ Hid). fold used. cbn zeta.
    destruct (Z.ltb_spec used FREE_TIER_LIMIT); [reflexivity | lia].
  - intros Hge. rewrite (freemiumGate_unfold _ _ _ Hid). fold used. cbn zeta.
    destruct (Z.ltb_spec used FREE_TIER_LIMIT); [lia | reflexivity].
  - intros js before.
    pose proof (runJobs_usage js ∅ id) as Hu. fold before in Hu.
    rewrite lookup_empty in Hu. cbn in Hu.
    rewrite (freemiumGate_unfold _ _ _ Hid). cbn zeta. rewrite Hu.
    split; intros Hn.
    + destruct (Z.ltb_spec (Z.max 0 (Z.min (0 + Z.of_nat (arrivals id js)) FREE_TIER_LIMIT))
                           FREE_TIER_LIMIT); [eauto | unfold FREE_TIER_LIMIT in *; lia].
    + destruct (Z.ltb_spec (Z.max 0 (Z.min (0 + Z.of_nat (arrivals id js)) FREE_TIER_LIMIT))
                           FREE_TIER_LIMIT); [unfold FREE_TIER_LIMIT in *; lia | reflexivity].
Qed.

Lemma gate_check_and_consume_witness :
  let req := Sample.request (HString "0xabc") None in
  callerId req = Ok "0xabc" /\
  freemiumGate ∅ req =
    Ok (<["0xabc" := 1]> ∅,
        Next (mkRequest (HString "0xabc") (ip req) (remoteAddress req) None
                        (Some true) (Some 1))) /\
  freemiumGate (<["0xabc" := 2]> ∅) req =
    Ok (<["0xabc" := 2]> ∅, PaymentMiddlewareFn req).
Proof.
  cbv zeta. split; [reflexivity|].
  pose proof (gate_check_and_consume ∅ (Sample.request (HString "0xabc") None)
                "0xabc" eq_refl) as [Hgrant _].
  pose proof (gate_check_and_consume (<["0xabc" := 2]> ∅)
                (Sample.request (HString "0xabc") None) "0xabc" eq_refl) as (_ & Hdeny & _).
  cbv zeta in Hgrant, Hdeny.
  rewrite lookup_empty in Hgrant. rewrite lookup_insert_eq in Hdeny.
  split; [apply Hgrant | apply Hdeny]; reflexivity.
Defined.

(** C1, counterexample: on a denial the request reaches the payment
    middleware with [freeTierRemaining] unset; the gate reports no
    remaining count of 0. *)
Lemma denial_reports_no_remaining :
  let req := Sample.request (HString "0xabc") None in
  freemiumGate (<["0xabc" := 2]> ∅) req = Ok (<["0xabc" := 2]> ∅, PaymentMiddlewareFn req) /\
  freeTierRemaining req = None /\
  freeTierRemaining req <> Some 0.
Proof.
  cbv zeta. split; [|split; [reflexivity | discriminate]].
  rewrite (freemiumGate_unfold _ (Sample.request (HString "0xabc") None) "0xabc" eq_refl).
  rewrite lookup_insert_eq. reflexivity.
Qed.

(** C2. Each request's check and increment run inside one job of the event
    loop. Whatever the schedule (any order of the requests, any other jobs
    in between), when [limit + k] requests, [k > 0], come from an identity
    the map has not seen, exactly [limit] of them are passed on for free;
    the same holds for every reordering of the schedule. *)
Theorem gate_grants_exactly_limit (js : list Job) (walletUsage : gmap string Z)
    (id : string) (k : nat) :
  walletUsage !! id = None ->
  (0 < k)%nat ->
  arrivals id js = (Z.to_nat FREE_TIER_LIMIT + k)%nat ->
  granted id (runJobs walletUsage js).2 = Z.to_nat FREE_TIER_LIMIT /\
  (forall js', js ≡ₚ js' ->
     granted id (runJobs walletUsage js').2 = Z.to_nat FREE_TIER_LIMIT).
Proof.
  intros Hnew Hk Hn.
  assert (H : forall js', arrivals id js' = (Z.to_nat FREE_TIER_LIMIT + k)%nat ->
                granted id (runJobs walletUsage js').2 = Z.to_nat FREE_TIER_LIMIT).
  { intros js' Hn'.
    pose proof (runJobs_granted js' walletUsage id) as Hg.
    rewrite Hnew, Hn' in Hg. cbn in Hg. unfold FREE_TIER_LIMIT in *. lia. }
  split; [apply H; exact Hn|].
  intros js' Hp. apply H. rewrite <- (arrivals_Permutation id _ _ Hp). exact Hn.
Qed.

Lemma gate_grants_exactly_limit_witness :
  let a := Sample.request (HString "0xabc") None in
  let b := Sample.request (HString "0xdef") None in
  let js := [Dispatch a; Other; Dispatch b; Dispatch a; Other; Dispatch a; Dispatch b] in
  arrivals "0xabc" js = 3%nat /\
  granted "0xabc" (runJobs ∅ js).2 = 2%nat.
Proof.
  cbv zeta. split; [reflexivity|].
  apply (proj1 (gate_grants_exactly_limit
                  [Dispatch (Sample.request (HString "0xabc") None); Other;
                   Dispatch (Sample.request (HString "0xdef") None);
                   Dispatch (Sample.request (HString "0xabc") None); Other;
                   Dispatch (Sample.request (HString "0xabc") None);
                   Dispatch (Sample.request (HString "0xdef") None)]
                  ∅ "0xabc" 1 (lookup_empty _) (Nat.lt_0_1) eq_refl)).
Defined.



End Gate.

(** ** Byte arrays and the ABI encoding *)

Module BytesFacts.

Import Bytes.

Lemma bigEndian_length n v : length (bigEndian n v) = n.
Proof. induction n as [|n IH]; simpl; [reflexivity | now rewrite IH]. Qed.

Lemma bigEndian_byte n v b : In b (bigEndian n v) -> 0 <= b < 256.
Proof.
  induction n as [|n IH]; simpl; [tauto|].
  intros [<-|Hin]; [|auto].
  change 255 with (Z.ones 8). rewrite Z.land_ones by lia.
  apply Z.mod_pos_bound. lia.
Qed.

(** [a] bytes written at 0 into a fresh array of [a + b] leave [b] zero
    bytes behind them. *)
Lemma set_first (enc : list Z) (a b : nat) :
  length enc = a -> set (Uint8Array (a + b)) enc 0 = Ok (enc ++ replicate b 0).
Proof.
  intros Ha. unfold set, Uint8Array. rewrite length_replicate, Ha.
  destruct (Nat.leb_spec (0 + a) (a + b)) as [_|]; [|lia].
  f_equal. cbn [take Nat.add]. now rewrite drop_replicate_add.
Qed.

(** Filling a fresh array of [a + b] bytes with [a] bytes at 0 and [b]
    bytes at [a] gives the two, one after the other. *)
Lemma set_twice (enc sig : list Z) (a b : nat) :
  length enc = a -> length sig = b ->
  (filled ← set (Uint8Array (a + b)) enc 0; set filled sig a) = Ok (enc ++ sig).
Proof.
  intros Ha Hb. rewrite (set_first enc a b Ha). cbn [mbind Result_bind]. unfold set.
  rewrite length_app, length_replicate, Ha, Hb.
  destruct (Nat.leb_spec (a + b) (a + b)) as [_|]; [|lia].
  f_equal.
  rewrite take_app_length' by (symmetry; exact Ha).
  rewrite drop_ge by (rewrite length_app, length_replicate; lia).
  now rewrite app_nil_r.
Qed.

(** When the second part is too long the second [set] throws. *)
Lemma set_overflow (enc sig : list Z) (a b : nat) :
  length enc = a -> (b < length sig)%nat ->
  is_ok (filled ← set (Uint8Array (a + b)) enc 0; set filled sig a) = false.
Proof.
  intros Ha Hb. rewrite (set_first enc a b Ha). cbn [mbind Result_bind]. unfold set.
  rewrite length_app, length_replicate, Ha.
  destruct (Nat.leb_spec (a + length sig) (a + b)) as [|_]; [lia|].
  reflexivity.
Qed.

End BytesFacts.

Module AbiFacts.

Import ethers ethers.AbiCoder.

Section Encoding.
Context `{L : Library}.

Lemma word_length v : length (word v) = 32%nat.
Proof. apply BytesFacts.bigEndian_length. Qed.

Lemma encodeValue_uint bits n enc :
  encodeValue (uint bits) (BigInt n) = Ok enc ->
  0 <= n < 2 ^ bits /\ enc = word n.
Proof.
  simpl. destruct (Z.leb_spec 0 n), (Z.ltb_spec n (2 ^ bits)); simpl;
    intros [= <-] || discriminate. split; [lia | reflexivity].
Qed.

Lemma encodeValue_address s enc :
  encodeValue address (Text s) = Ok enc ->
  exists a, getAddress s = Some a /\ enc = word a.
Proof.
  simpl. destruct (getAddress s) as [a|]; [|discriminate].
  intros [= <-]. eauto.
Qed.

(** Every value takes one word. *)
Lemma encode_length types : forall values enc,
  encode types values = Ok enc -> length enc = (32 * length types)%nat.
Proof.
  induction types as [|t types IH]; intros [|v values] enc; simpl; try discriminate.
  - intros [= <-]. reflexivity.
  - destruct (encodeValue t v) as [w|] eqn:Ew; [|discriminate].
    cbn [mbind Result_bind].
    destruct (encode types values) as [rest|] eqn:Er; [|discriminate].
    cbn [mbind Result_bind]. intros [= <-].
    rewrite length_app, (IH _ _ Er).
    assert (length w = 32%nat); [|lia].
    destruct t, v; simpl in Ew; try discriminate.
    + destruct (_ && _); [|discriminate]. injection Ew as <-. apply word_length.
    + destruct (getAddress s); [|discriminate]. injection Ew as <-. apply word_length.
Qed.

Lemma encode_cons t types v values enc :
  encode (t :: types) (v :: values) = Ok enc ->
  exists w rest, encodeValue t v = Ok w /\ encode types values = Ok rest /\ enc = w ++ rest.
Proof.
  simpl. destruct (encodeValue t v) as [w|]; [|discriminate].
  cbn [mbind Result_bind].
  destruct (encode types values) as [rest|]; [|discriminate].
  cbn [mbind Result_bind]. intros [= <-]. eauto.
Qed.

End Encoding.

End AbiFacts.

(** ** The handler *)

Module ServerFacts.

Import ethers Server.

Lemma sample_sound : Sound Sample.library.
Proof.
  split; simpl; unfold Sample.sign; intros w m sig;
    destruct (String.eqb (address w) Sample.agentAddress) eqn:E; try discriminate.
  - intros [= <-]. reflexivity.
  - intros _. apply String.eqb_eq in E. now rewrite E.
Qed.

Section Handler.
Context `{L : Library}.

Lemma authWords_length n c e ch r a : length (authWords n c e ch r a) = 224%nat.
Proof. unfold authWords. rewrite !length_app, !BytesFacts.bigEndian_length. reflexivity. Qed.

(** What a successful encoding of the seven values is. *)
Lemma encode_auth cfg w n client expiry chainId enc :
  AbiCoder.encode authTypes (authValues cfg w n client expiry chainId) = Ok enc ->
  exists aClient aRegistry aAgent,
    getAddress client = Some aClient /\
    getAddress (IDENTITY_REGISTRY cfg) = Some aRegistry /\
    getAddress (address w) = Some aAgent /\
    enc = authWords n aClient expiry chainId aRegistry aAgent.
Proof.
  unfold authTypes, authValues. intros H.
  apply AbiFacts.encode_cons in H as (w1 & r1 & H1 & H & ->).
  apply AbiFacts.encode_cons in H as (w2 & r2 & H2 & H & ->).
  apply AbiFacts.encode_cons in H as (w3 & r3 & H3 & H & ->).
  apply AbiFacts.encode_cons in H as (w4 & r4 & H4 & H & ->).
  apply AbiFacts.encode_cons in H as (w5 & r5 & H5 & H & ->).
  apply AbiFacts.encode_cons in H as (w6 & r6 & H6 & H & ->).
  apply AbiFacts.encode_cons in H as (w7 & r7 & H7 & H & ->).
  simpl in H. injection H as <-.
  apply AbiFacts.encodeValue_uint in H1 as [_ ->].
  apply AbiFacts.encodeValue_address in H2 as (a2 & G2 & ->).
  apply AbiFacts.encodeValue_uint in H3 as [_ ->].
  apply AbiFacts.encodeValue_uint in H4 as [_ ->].
  apply AbiFacts.encodeValue_uint in H5 as [_ ->].
  apply AbiFacts.encodeValue_address in H6 as (a6 & G6 & ->).
  apply AbiFacts.encodeValue_address in H7 as (a7 & G7 & ->).
  exists a2, a6, a7. repeat split; assumption.
Qed.

(** The steps of a successful [contractAuth]. *)
Lemma contractAuth_Ok cfg w n client now hex :
  contractAuth cfg w n client now = Ok hex ->
  exists chainId enc sig filled,
    CHAIN_ID cfg = Some chainId /\
    AbiCoder.encode authTypes (authValues cfg w n client (expiryOf now) chainId) = Ok enc /\
    signMessage w (keccak256 enc) = Ok sig /\
    (a ← Bytes.set (Bytes.Uint8Array (224 + 65)) enc 0; Bytes.set a sig 224) = Ok filled /\
    hex = Bytes.hexlify filled.
Proof.
  unfold contractAuth. cbn zeta.
  destruct (CHAIN_ID cfg) as [chainId|]; [|discriminate]. cbn [BigInt mbind Result_bind].
  destruct (AbiCoder.encode _ _) as [enc|] eqn:Eenc; [|discriminate].
  cbn [mbind Result_bind].
  destruct (signMessage w (keccak256 enc)) as [sig|] eqn:Esig; [|discriminate].
  cbn [mbind Result_bind].
  destruct (Bytes.set (Bytes.Uint8Array (224 + 65)) enc 0) as [a|] eqn:Ea; [|discriminate].
  cbn [mbind Result_bind].
  destruct (Bytes.set a sig 224) as [filled|] eqn:Ef; [|discriminate].
  cbn [mbind Result_bind]. intros [= <-].
  exists chainId, enc, sig, filled.
  split; [reflexivity|]. split; [exact Eenc|]. split; [exact Esig|].
  split; [rewrite Ea; exact Ef | reflexivity].
Qed.

(** The cases of [buildPayload]. *)
Lemma buildPayload_plain cfg req url data Date_now :
  agentWallet cfg = None \/ Js.truthy (clientAddressOf req) = false ->
  buildPayload cfg req url data Date_now = Ok (mkPayload data None None).
Proof.
  unfold buildPayload. cbn zeta. intros [->| H]; [reflexivity|].
  destruct (agentWallet cfg); [|reflexivity].
  destruct (clientAddressOf req) as [[|]|]; simpl in H; try discriminate; reflexivity.
Qed.

Lemma buildPayload_signed cfg req url data Date_now w client :
  agentWallet cfg = Some w ->
  clientAddressOf req = Some client ->
  client <> "" ->
  buildPayload cfg req url data Date_now =
    (payload ← match NUMERIC_AGENT_ID cfg with
               | Some numericAgentId =>
                   blob ← contractAuth cfg w numericAgentId client (Date_now 1%nat);
                   Ok (mkPayload data (Some blob) None)
               | None => Ok (mkPayload data None None)
               end;
     Ok (mkPayload (result payload) (feedbackAuthContract payload)
                   (Some (mkFeedbackAuth (address w) (taskIdOf url (Date_now 0%nat)))))).
Proof.
  unfold buildPayload. cbn zeta. intros -> -> Hne.
  destruct client; [congruence|]. reflexivity.
Qed.

Lemma truthy_clientAddress req :
  Js.truthy (clientAddressOf req) = true ->
  exists client, clientAddressOf req = Some client /\ client <> "".
Proof.
  destruct (clientAddressOf req) as [[|c s]|]; simpl; try discriminate.
  intros _. eexists. split; [reflexivity | discriminate].
Qed.

End Handler.

End ServerFacts.

Module Attestation.

Import ethers Server ServerFacts.

(** X16. The text that is digested for a task reference is the URL followed
    by the time stamp in decimal, and for one URL it determines the time
    stamp: two deliveries of one resource have the same text only at the same
    time stamp. So when two references of one resource are equal, the time
    stamps are equal or the two digested texts are a collision of the
    digest. *)
Theorem taskId_clash_is_collision `{L : Library} (url : string) (t1 t2 : Z) :
  (url +:+ Js.numberToString t1 = url +:+ Js.numberToString t2 <-> t1 = t2) /\
  (taskIdOf url t1 = taskIdOf url t2 ->
   t1 = t2 \/
   collision id (url +:+ Js.numberToString t1) (url +:+ Js.numberToString t2)).
Proof.
  assert (Htext : url +:+ Js.numberToString t1 = url +:+ Js.numberToString t2 -> t1 = t2).
  { intros E. apply JsFacts.numberToString_inj. exact (JsFacts.append_inj_r _ _ _ E). }
  split; [split; [exact Htext | now intros ->]|].
  intros E. destruct (Z.eq_dec t1 t2) as [Heq|Hne]; [now left|].
  right. split; [|exact E]. intros Et. exact (Hne (Htext Et)).
Qed.

(** C4. With a numeric agent id configured, a payload that carries an
    attestation carries the blob, and the blob is 289 bytes: the first 224
    are the seven 32-byte words (agent id, client address, index limit 1000,
    expiry = seconds of the clock + 3600, chain id, registry address, signer
    address), the last 65 are the signature of the digest of those 224
    bytes, from which the signer's address is recovered. *)
Theorem authorization_blob_layout `{L : Library} {S : Sound L}
    (cfg : Config) (req : Request) (url : string)
    (data : Simplescraper.SimplescraperExtractResult) (Date_now : nat -> Z)
    (payload : Payload) (numericAgentId : Z) :
  NUMERIC_AGENT_ID cfg = Some numericAgentId ->
  buildPayload cfg req url data Date_now = Ok payload ->
  feedbackAuth payload <> None ->
  exists w client chainId aClient aRegistry aAgent sig,
    agentWallet cfg = Some w /\
    clientAddressOf req = Some client /\
    CHAIN_ID cfg = Some chainId /\
    getAddress client = Some aClient /\
    getAddress (IDENTITY_REGISTRY cfg) = Some aRegistry /\
    getAddress (address w) = Some aAgent /\
    let encoding :=
      authWords numericAgentId aClient (Date_now 1%nat / 1000 + 3600) chainId
                aRegistry aAgent in
    let blob := encoding ++ sig in
    feedbackAuthContract payload = Some (Bytes.hexlify blob) /\
    length blob = 289%nat /\
    length encoding = 224%nat /\
    take 224 blob = encoding /\
    drop 224 blob = sig /\
    length sig = 65%nat /\
    signMessage w (keccak256 encoding) = Ok sig /\
    verifyMessage (keccak256 encoding) sig = Some (address w).
Proof.
  intros Hn Hp Hfa.
  destruct (agentWallet cfg) as [w|] eqn:Hw;
    [|rewrite buildPayload_plain in Hp by (left; exact Hw);
      injection Hp as <-; contradiction].
  destruct (Js.truthy (clientAddressOf req)) eqn:Hc;
    [|rewrite buildPayload_plain in Hp by (right; exact Hc);
      injection Hp as <-; contradiction].
  apply truthy_clientAddress in Hc as (client & Hc & Hne).
  rewrite (buildPayload_signed _ _ _ _ _ w client Hw Hc Hne), Hn in Hp.
  destruct (contractAuth cfg w numericAgentId client (Date_now 1%nat)) as [hex|] eqn:Hca;
    [|discriminate].
  cbn [mbind Result_bind result feedbackAuthContract] in Hp. injection Hp as <-.
  apply contractAuth_Ok in Hca as (chainId & enc & sig & filled & Hch & Henc & Hsig & Hset & ->).
  apply encode_auth in Henc as (aClient & aRegistry & aAgent & Ha1 & Ha2 & Ha3 & ->).
  pose proof (signMessage_length _ _ _ Hsig) as Hlen.
  pose proof (signMessage_verify _ _ _ Hsig) as Hver.
  rewrite (BytesFacts.set_twice _ sig 224 65 (authWords_length _ _ _ _ _ _) Hlen) in Hset.
  injection Hset as <-.
  exists w, client, chainId, aClient, aRegistry, aAgent, sig.
  unfold expiryOf in *. cbn zeta.
  repeat (split; [first [reflexivity | assumption]|]).
  split; [rewrite length_app, authWords_length, Hlen; reflexivity|].
  split; [apply authWords_length|].
  split; [apply take_app_length'; now rewrite authWords_length|].
  split; [apply drop_app_length'; now rewrite authWords_length|].
  repeat split; assumption.
Qed.

Lemma authorization_blob_layout_witness :
  let req := Sample.request (HString Sample.client)
               (Some (Sample.bodyOf (JString "https://example.com") JUndefined)) in
  exists payload blob,
    buildPayload (H := Sample.library) Sample.onChain req "https://example.com"
                 Sample.page Sample.clock = Ok payload /\
    feedbackAuthContract payload = Some (Bytes.hexlify blob) /\
    length blob = 289%nat /\
    take 224 blob = authWords 1 199 1700003600 84532
                      0x8004AA63c570c570eBF15376c0dB199918BFe9Fb 161.
Proof.
  cbv zeta.
  eexists. 
  destruct (authorization_blob_layout (L := Sample.library) (S := sample_sound)
              Sample.onChain
              (Sample.request (HString Sample.client)
                 (Some (Sample.bodyOf (JString "https://example.com") JUndefined)))
              "https://example.com" Sample.page Sample.clock
              _ 1 eq_refl eq_refl)
    as (w & client & chainId & aClient & aRegistry & aAgent & sig &
        Hw & Hc & Hch & Ha1 & Ha2 & Ha3 & Hblob & Hlen & _ & Htake & _).
  - discriminate.
  - injection Hw as <-. injection Hc as <-. injection Hch as <-.
    vm_compute in Ha1, Ha2, Ha3.
    injection Ha1 as <-. injection Ha2 as <-. injection Ha3 as <-.
    exists (authWords 1 199 1700003600 84532
              0x8004AA63c570c570eBF15376c0dB199918BFe9Fb 161 ++ sig).
    split; [reflexivity|]. split; [exact Hblob|]. split; [exact Hlen | exact Htake].
Defined.

End Attestation.

Module Scrape.

Import ethers Server ServerFacts.

Lemma scrape_await `{L : Library} cfg req url options k :
  scrape cfg req = AwaitExtractUrl url options k ->
  exists b, body req = Some b /\ urlOf req = Some url /\ url <> "" /\
            options = Simplescraper.mkOptions (markdown b) (html b) /\
            k = resume cfg req url.
Proof.
  unfold scrape.
  destruct (urlOf req) as [[|c u]|]; try discriminate.
  destruct (body req) as [b|]; [|discriminate].
  intros [= <- <- <-]. exists b. repeat split. discriminate.
Qed.

Lemma scrape_missing_url `{L : Library} cfg req :
  Js.truthy (urlOf req) = false ->
  scrape cfg req =
    Responded (mkResponse 400 (MissingField "Missing required field: url"
                                            ["markdown"; "html"; "clientAddress"])).
Proof.
  unfold scrape. destruct (urlOf req) as [[|c u]|]; simpl; try discriminate; reflexivity.
Qed.

(** When [buildPayload] throws it is [contractAuth] that threw. *)
Lemma buildPayload_Throw `{L : Library} cfg req url data Date_now e :
  buildPayload cfg req url data Date_now = Throw e <->
  exists w client n,
    agentWallet cfg = Some w /\ clientAddressOf req = Some client /\ client <> "" /\
    NUMERIC_AGENT_ID cfg = Some n /\
    contractAuth cfg w n client (Date_now 1%nat) = Throw e.
Proof.
  split.
  - intros Hp.
    destruct (agentWallet cfg) as [w|] eqn:Hw;
      [|rewrite buildPayload_plain in Hp by (left; exact Hw); discriminate].
    destruct (Js.truthy (clientAddressOf req)) eqn:Hc;
      [|rewrite buildPayload_plain in Hp by (right; exact Hc); discriminate].
    apply truthy_clientAddress in Hc as (client & Hc & Hne).
    rewrite (buildPayload_signed _ _ _ _ _ w client Hw Hc Hne) in Hp.
    destruct (NUMERIC_AGENT_ID cfg) as [n|]; [|discriminate].
    destruct (contractAuth cfg w n client (Date_now 1%nat)) as [hex|e'] eqn:Hca;
      [discriminate|].
    injection Hp as ->. exists w, client, n. repeat split; assumption.
  - intros (w & client & n & Hw & Hc & Hne & Hn & Hca).
    rewrite (buildPayload_signed _ _ _ _ _ w client Hw Hc Hne), Hn, Hca. reflexivity.
Qed.

Lemma contractAuth_sign_Throw `{L : Library} cfg w n client now chainId enc e :
  CHAIN_ID cfg = Some chainId ->
  AbiCoder.encode authTypes (authValues cfg w n client (expiryOf now) chainId) = Ok enc ->
  signMessage w (keccak256 enc) = Throw e ->
  contractAuth cfg w n client now = Throw e.
Proof.
  unfold contractAuth. intros -> Henc Hs. cbn zeta. cbn [BigInt mbind Result_bind].
  rewrite Henc. cbn [mbind Result_bind]. rewrite Hs. reflexivity.
Qed.

(** C3, as the handler has it. After a successful extraction, an exception
    from the attestation (the encoding or the signing) reaches the handler's
    one [catch]: the error is logged, and the response is the 500
    "Internal server error during scrape." with no attestation and without
    the service result. A signer that throws is such an exception. A
    malformed key makes [new Wallet] throw when the module is loaded. *)
Theorem attestation_failure_fails_request `{L : Library}
    (cfg : Config) (req : Request) (url : string)
    (data : Simplescraper.SimplescraperExtractResult) (Date_now : nat -> Z) :
  (forall e, buildPayload cfg req url data Date_now = Throw e ->
     resume cfg req url (Simplescraper.ok_true data) Date_now =
       (internalError, [("[scrape] unexpected error:", e)]) /\
     hasAttestation internalError = false) /\
  (forall w client n chainId enc e,
     agentWallet cfg = Some w -> clientAddressOf req = Some client -> client <> "" ->
     NUMERIC_AGENT_ID cfg = Some n -> CHAIN_ID cfg = Some chainId ->
     AbiCoder.encode authTypes
       (authValues cfg w n client (expiryOf (Date_now 1%nat)) chainId) = Ok enc ->
     signMessage w (keccak256 enc) = Throw e ->
     buildPayload cfg req url data Date_now = Throw e) /\
  (forall key e, key <> "" -> newWallet key = Throw e ->
     loadAgentWallet (Some key) = Throw e).
Proof.
  split; [|split].
  - intros e Hp. unfold resume. rewrite Hp. split; reflexivity.
  - intros w client n chainId enc e Hw Hc Hne Hn Hch Henc Hs.
    apply buildPayload_Throw. exists w, client, n.
    repeat split; try assumption.
    exact (contractAuth_sign_Throw _ _ _ _ _ _ _ _ Hch Henc Hs).
  - intros key e Hne Hk. unfold loadAgentWallet.
    destruct key; [congruence|]. simpl in *. rewrite Hk. reflexivity.
Qed.

Lemma attestation_failure_fails_request_witness :
  let req := Sample.request (HString Sample.client)
               (Some (Sample.bodyOf (JString "https://example.com") JUndefined)) in
  buildPayload (H := Sample.failingSigner) Sample.onChain req "https://example.com"
               Sample.page Sample.clock = Throw (Error "signing failed") /\
  resume (H := Sample.failingSigner) Sample.onChain req "https://example.com"
         (Simplescraper.ok_true Sample.page) Sample.clock =
    (internalError, [("[scrape] unexpected error:", Error "signing failed")]).
Proof.
  cbv zeta. split; [reflexivity|].
  apply (proj1 (proj1 (attestation_failure_fails_request (L := Sample.failingSigner)
                         Sample.onChain
                         (Sample.request (HString Sample.client)
                            (Some (Sample.bodyOf (JString "https://example.com") JUndefined)))
                         "https://example.com" Sample.page Sample.clock)
                  (Error "signing failed") eq_refl)).
Defined.

(** C3, counterexample: the extraction succeeded and the signer throws; the
    caller gets status 500 with an error body, not the service result. The
    same happens when the wallet header is no address and the encoding
    throws. *)
Lemma signing_failure_is_a_500 :
  let body := Some (Sample.bodyOf (JString "https://example.com") JUndefined) in
  let req := Sample.request (HString Sample.client) body in
  let out := resume (H := Sample.failingSigner) Sample.onChain req "https://example.com"
                    (Simplescraper.ok_true Sample.page) Sample.clock in
  let out' := resume (H := Sample.library) Sample.onChain
                     (Sample.request (HString "not-an-address") body)
                     "https://example.com" (Simplescraper.ok_true Sample.page)
                     Sample.clock in
  contractAuth (H := Sample.failingSigner) Sample.onChain Sample.agent 1 Sample.client
               (Sample.clock 1%nat) = Throw (Error "signing failed") /\
  status out.1 = 500 /\
  json out.1 = ErrorJson "Internal server error during scrape." /\
  status out.1 <> 200 /\
  (forall payload, json out.1 <> PayloadJson payload) /\
  out' = (internalError, [("[scrape] unexpected error:", Error "invalid address")]).
Proof.
  cbv zeta. repeat split; try reflexivity; discriminate.
Qed.

(** C6, as the handler has it. After a successful extraction: a response
    with an attestation field comes only from a process with a signer key
    and a request with a client address; without either the response is the
    plain result, status 200, nothing logged; with both and no numeric agent
    id it carries the pair (signer address, task reference) and no blob;
    with both and a numeric agent id it carries the pair and the blob when
    the encoding and the signing succeed. *)
Theorem attestation_presence `{L : Library}
    (cfg : Config) (req : Request) (url : string)
    (data : Simplescraper.SimplescraperExtractResult) (Date_now : nat -> Z) :
  let out := resume cfg req url (Simplescraper.ok_true data) Date_now in
  let supplied := Js.truthy (clientAddressOf req) in
  let pair w := mkFeedbackAuth (address w) (taskIdOf url (Date_now 0%nat)) in
  (hasAttestation out.1 = true -> agentWallet cfg <> None /\ supplied = true) /\
  (agentWallet cfg = None \/ supplied = false ->
     out = (mkResponse 200 (PayloadJson (mkPayload data None None)), [])) /\
  (forall w, agentWallet cfg = Some w -> supplied = true -> NUMERIC_AGENT_ID cfg = None ->
     out = (mkResponse 200 (PayloadJson (mkPayload data None (Some (pair w)))), [])) /\
  (forall w client n hex,
     agentWallet cfg = Some w -> clientAddressOf req = Some client -> supplied = true ->
     NUMERIC_AGENT_ID cfg = Some n ->
     contractAuth cfg w n client (Date_now 1%nat) = Ok hex ->
     out = (mkResponse 200 (PayloadJson (mkPayload data (Some hex) (Some (pair w)))), [])).
Proof.
  cbv zeta.
  assert (Hplain : agentWallet cfg = None \/ Js.truthy (clientAddressOf req) = false ->
            resume cfg req url (Simplescraper.ok_true data) Date_now =
              (mkResponse 200 (PayloadJson (mkPayload data None None)), [])).
  { intros H. unfold resume. rewrite (buildPayload_plain _ _ _ _ _ H). reflexivity. }
  split; [|split; [exact Hplain|split]].
  - intros Hatt.
    destruct (agentWallet cfg) as [w|] eqn:Hw;
      [|rewrite Hplain in Hatt by (left; reflexivity); discriminate].
    destruct (Js.truthy (clientAddressOf req)) eqn:Hc;
      [|rewrite Hplain in Hatt by (right; reflexivity); discriminate].
    split; [discriminate | reflexivity].
  - intros w Hw Hc Hn.
    apply truthy_clientAddress in Hc as (client & Hc & Hne).
    unfold resume. rewrite (buildPayload_signed _ _ _ _ _ w client Hw Hc Hne), Hn.
    reflexivity.
  - intros w client n hex Hw Hc Hs Hn Hca.
    assert (Hne : client <> "") by (intros ->; rewrite Hc in Hs; discriminate).
    unfold resume. rewrite (buildPayload_signed _ _ _ _ _ w client Hw Hc Hne), Hn, Hca.
    reflexivity.
Qed.

Lemma attestation_presence_witness :
  let withWallet := Sample.request (HString Sample.client)
                      (Some (Sample.bodyOf (JString "https://example.com") JUndefined)) in
  resume (H := Sample.library) Sample.unsigned withWallet "https://example.com"
         (Simplescraper.ok_true Sample.page) Sample.clock =
    (mkResponse 200 (PayloadJson (mkPayload Sample.page None None)), []) /\
  resume (H := Sample.library) Sample.offChain withWallet "https://example.com"
         (Simplescraper.ok_true Sample.page) Sample.clock =
    (mkResponse 200
       (PayloadJson (mkPayload Sample.page None
          (Some (mkFeedbackAuth Sample.agentAddress "0xhttps://example.com1700000000000")))),
     []).
Proof.
  cbv zeta.
  pose proof (attestation_presence (L := Sample.library) Sample.unsigned
                (Sample.request (HString Sample.client)
                   (Some (Sample.bodyOf (JString "https://example.com") JUndefined)))
                "https://example.com" Sample.page Sample.clock) as (_ & Hplain & _).
  pose proof (attestation_presence (L := Sample.library) Sample.offChain
                (Sample.request (HString Sample.client)
                   (Some (Sample.bodyOf (JString "https://example.com") JUndefined)))
                "https://example.com" Sample.page Sample.clock) as (_ & _ & Hpair & _).
  split.
  - apply Hplain. left. reflexivity.
  - apply (Hpair Sample.agent); reflexivity.
Defined.

(** C6, counterexample: a signer key is configured and the body names a
    client address, "abc"; the encoding rejects it, the response is the 500
    of the [catch] block, and no attestation is produced. *)
Lemma key_and_client_without_attestation :
  let req := Sample.request HUndefined
               (Some (Sample.bodyOf (JString "https://example.com") (JString "abc"))) in
  let out := resume (H := Sample.library) Sample.onChain req "https://example.com"
                    (Simplescraper.ok_true Sample.page) Sample.clock in
  agentWallet Sample.onChain = Some Sample.agent /\
  clientAddressOf req = Some "abc" /\
  hasAttestation out.1 = false /\
  out = (internalError, [("[scrape] unexpected error:", Error "invalid address")]).
Proof. cbv zeta. repeat split. Qed.

(** C9. A request with a URL reaches [extractUrl]. Whatever way the
    extraction fails (no API key, an upstream status of 400 or more, a
    rejected request), the response has the upstream's status when there is
    one and 503 otherwise, its body is the error message alone, nothing is
    logged and no attestation field is present. *)
Theorem upstream_failure_surfaced `{L : Library}
    (cfg : Config) (req : Request) (url : string)
    (options : Simplescraper.SimplescraperExtractOptions)
    (k : Simplescraper.ExtractOutcome -> (nat -> Z) -> Response * list LogLine)
    (apiKey : option string)
    (post : Simplescraper.AxiosRequest -> Simplescraper.AxiosOutcome)
    (Date_now : nat -> Z) :
  scrape cfg req = AwaitExtractUrl url options k ->
  let sent := Simplescraper.extractRequest apiKey url options in
  let out := runHandler (scrape cfg req) apiKey post Date_now in
  (forall error status,
     Simplescraper.extractUrl apiKey post url options = Simplescraper.ok_false error status ->
     out = (mkResponse (Js.nullish status 503) (ErrorJson error), []) /\
     hasAttestation out.1 = false) /\
  (Js.truthy apiKey = false ->
     out = (mkResponse 503 (ErrorJson "SIMPLESCRAPER_API_KEY not configured"), [])) /\
  (forall status data,
     Js.truthy apiKey = true -> post sent = Simplescraper.Resolved status data ->
     400 <= status ->
     out = (mkResponse status
              (ErrorJson (Js.nullish (Simplescraper.error_message data)
                                     ("HTTP " +:+ Js.numberToString status))), [])) /\
  (forall err,
     Js.truthy apiKey = true -> post sent = Simplescraper.Rejected err ->
     out = (mkResponse 503
              (ErrorJson match err with
                         | Simplescraper.ErrorInstance m => m
                         | Simplescraper.NotAnError => "Unknown error"
                         end), [])).
Proof.
  intros Hs. cbv zeta. rewrite Hs. cbn [runHandler].
  apply scrape_await in Hs as (b & _ & _ & _ & _ & ->).
  assert (Hfail : forall error status,
            Simplescraper.extractUrl apiKey post url options =
              Simplescraper.ok_false error status ->
            resume cfg req url (Simplescraper.extractUrl apiKey post url options) Date_now =
              (mkResponse (Js.nullish status 503) (ErrorJson error), [])).
  { intros error status ->. reflexivity. }
  split; [|split; [|split]].
  - intros error status He. rewrite (Hfail _ _ He). split; reflexivity.
  - intros Hk. apply (Hfail _ None). unfold Simplescraper.extractUrl. rewrite Hk. reflexivity.
  - intros status data Hk Hp Hst. apply (Hfail _ (Some status)).
    unfold Simplescraper.extractUrl. rewrite Hk, Hp. cbn [negb].
    destruct (Z.geb_spec status 400); [reflexivity | lia].
  - intros err Hk Hp. apply (Hfail _ None).
    unfold Simplescraper.extractUrl. rewrite Hk, Hp. reflexivity.
Qed.

Lemma upstream_failure_surfaced_witness :
  let req := Sample.request (HString Sample.client)
               (Some (Sample.bodyOf (JString "https://example.com") JUndefined)) in
  let notFound := Simplescraper.mkAxiosData (Some "page not found") Sample.page in
  runHandler (scrape (H := Sample.library) Sample.onChain req) (Some "key")
             (fun _ => Simplescraper.Resolved 404 notFound) Sample.clock =
    (mkResponse 404 (ErrorJson "page not found"), []) /\
  runHandler (scrape (H := Sample.library) Sample.onChain req) (Some "key")
             (fun _ => Simplescraper.Rejected (Simplescraper.ErrorInstance "timeout"))
             Sample.clock =
    (mkResponse 503 (ErrorJson "timeout"), []).
Proof.
  cbv zeta. split.
  - apply (proj1 (proj2 (proj2
             (upstream_failure_surfaced (L := Sample.library) Sample.onChain
                (Sample.request (HString Sample.client)
                   (Some (Sample.bodyOf (JString "https://example.com") JUndefined)))
                "https://example.com" _ _ (Some "key")
                (fun _ => Simplescraper.Resolved 404
                            (Simplescraper.mkAxiosData (Some "page not found") Sample.page))
                Sample.clock eq_refl)))
             404 (Simplescraper.mkAxiosData (Some "page not found") Sample.page)
             eq_refl eq_refl).
    lia.
  - apply (proj2 (proj2 (proj2
             (upstream_failure_surfaced (L := Sample.library) Sample.onChain
                (Sample.request (HString Sample.client)
                   (Some (Sample.bodyOf (JString "https://example.com") JUndefined)))
                "https://example.com" _ _ (Some "key")
                (fun _ => Simplescraper.Rejected (Simplescraper.ErrorInstance "timeout"))
                Sample.clock eq_refl)))
             (Simplescraper.ErrorInstance "timeout") eq_refl eq_refl).
Defined.

(** C10. The gate runs before the handler looks at the body: for a caller
    below the limit and a body without a usable [url] (no body, no string, or
    empty once trimmed), the stored count goes up by one, the handler answers
    400 at once, and [extractUrl] is not called. *)
Theorem quota_consumed_before_validation `{L : Library}
    (cfg : Config) (walletUsage : gmap string Z) (req : Request) (id : string) :
  callerId req = Ok id ->
  let used := Js.nullish (walletUsage !! id) 0 in
  used < FREE_TIER_LIMIT ->
  Js.truthy (urlOf req) = false ->
  exists walletUsage' req' h,
    postScrape cfg walletUsage req = Ok (walletUsage', Handled req' h) /\
    walletUsage' = <[id := used + 1]> walletUsage /\
    walletUsage' !! id = Some (used + 1) /\
    h = Responded (mkResponse 400 (MissingField "Missing required field: url"
                                                ["markdown"; "html"; "clientAddress"])) /\
    extractCalls h = 0%nat /\
    (forall apiKey post Date_now,
       runHandler h apiKey post Date_now =
         (mkResponse 400 (MissingField "Missing required field: url"
                                       ["markdown"; "html"; "clientAddress"]), [])).
Proof.
  intros Hid used Hlt Hurl.
  unfold postScrape. rewrite (GateFacts.freemiumGate_unfold _ _ _ Hid). cbn zeta. fold used.
  destruct (Z.ltb_spec used FREE_TIER_LIMIT); [|lia].
  cbn [mbind Result_bind].
  rewrite scrape_missing_url by exact Hurl.
  do 3 eexists. split; [reflexivity|]. split; [reflexivity|].
  split; [apply lookup_insert_eq|]. repeat split.
Qed.

Lemma quota_consumed_before_validation_witness :
  let req := Sample.request (HString "0xabc") (Some (Sample.bodyOf (JString "   ") JUndefined)) in
  exists walletUsage' req' h,
    postScrape (H := Sample.library) Sample.onChain ∅ req = Ok (walletUsage', Handled req' h) /\
    walletUsage' !! "0xabc" = Some 1 /\
    extractCalls h = 0%nat.
Proof.
  cbv zeta.
  destruct (quota_consumed_before_validation (L := Sample.library) Sample.onChain ∅
              (Sample.request (HString "0xabc") (Some (Sample.bodyOf (JString "   ") JUndefined)))
              "0xabc" eq_refl)
    as (walletUsage' & req' & h & Hp & _ & Hl & _ & Hc & _).
  - rewrite lookup_empty. reflexivity.
  - reflexivity.
  - exists walletUsage', req', h. rewrite lookup_empty in Hl.
    split; [exact Hp|]. split; [exact Hl | exact Hc].
Defined.

End Scrape.

(** ** The quota map over a whole schedule *)

Module Quota.

Import GateFacts.

Lemma runJobs_cons walletUsage j js :
  runJobs walletUsage (j :: js) =
    ((runJobs (runJob walletUsage j).1 js).1,
     match (runJob walletUsage j).2 with
     | Some e => e :: (runJobs (runJob walletUsage j).1 js).2
     | None => (runJobs (runJob walletUsage j).1 js).2
     end).
Proof.
  cbn [runJobs]. destruct (runJob walletUsage j) as [w e]. cbn [fst snd].
  destruct (runJobs w js) as [w' log]. reflexivity.
Qed.

Lemma runJobs_app js1 : forall walletUsage js2,
  runJobs walletUsage (js1 ++ js2) =
    ((runJobs (runJobs walletUsage js1).1 js2).1,
     (runJobs walletUsage js1).2 ++ (runJobs (runJobs walletUsage js1).1 js2).2).
Proof.
  induction js1 as [|j js1 IH]; intros walletUsage js2.
  - cbn [app runJobs fst snd]. now destruct (runJobs walletUsage js2).
  - rewrite <- app_comm_cons, !runJobs_cons, IH. cbn [fst snd].
    destruct ((runJob walletUsage j).2); reflexivity.
Qed.

(** One job changes the record of [id] only when it is a request of [id]
    that is let through for free. *)
Lemma runJob_lookup walletUsage j id :
  (runJob walletUsage j).1 !! id =
    match j with
    | Dispatch req =>
        if isFrom id req && (Js.nullish (walletUsage !! id) 0 <? FREE_TIER_LIMIT)
        then Some (Js.nullish (walletUsage !! id) 0 + 1)
        else walletUsage !! id
    | Other => walletUsage !! id
    end.
Proof.
  destruct j as [req|]; [|reflexivity]. cbn [runJob]. unfold isFrom.
  destruct (callerId req) as [id'|e] eqn:Hid.
  - rewrite (freemiumGate_unfold _ _ _ Hid). cbn zeta.
    case_bool_decide as Heq.
    + subst id'. destruct (_ <? _); cbn [fst andb]; [apply lookup_insert_eq | reflexivity].
    + destruct (_ <? _); cbn [fst andb]; [now apply lookup_insert_ne | reflexivity].
  - rewrite (freemiumGate_throw _ _ _ Hid). reflexivity.
Qed.

(** The record of [id] after a schedule, from the record before it and the
    number of requests of [id]. *)
Lemma runJobs_lookup js : forall walletUsage id,
  (runJobs walletUsage js).1 !! id =
    let used := Js.nullish (walletUsage !! id) 0 in
    if (arrivals id js =? 0)%nat || negb (used <? FREE_TIER_LIMIT)
    then walletUsage !! id
    else Some (Z.min (used + Z.of_nat (arrivals id js)) FREE_TIER_LIMIT).
Proof.
  induction js as [|j js IH]; intros walletUsage id; [reflexivity|].
  rewrite runJobs_cons. cbn [fst]. rewrite IH, runJob_lookup. cbn zeta.
  destruct j as [req|]; [|reflexivity]. cbn [arrivals].
  destruct (isFrom id req); cbn [andb Nat.add]; [|reflexivity].
  destruct (Js.nullish (walletUsage !! id) 0 <? FREE_TIER_LIMIT) eqn:E;
    cbn [Js.nullish negb orb].
  - apply Z.ltb_lt in E. rewrite orb_false_r. cbn [Nat.eqb].
    destruct (Nat.eqb_spec (arrivals id js) 0) as [->|Hn]; cbn [orb].
    + f_equal. lia.
    + destruct (Z.ltb_spec (Js.nullish (walletUsage !! id) 0 + 1) FREE_TIER_LIMIT);
        cbn [negb]; f_equal; lia.
  - rewrite E. cbn [negb]. rewrite !orb_true_r. reflexivity.
Qed.

(** X1. The quota is kept per identity: a schedule without a request of [id]
    (requests of other callers, requests that throw, other jobs) leaves the
    record of [id] exactly as it was, present or absent. *)
Theorem quota_identity_scoped (js : list Job) (walletUsage : gmap string Z) (id : string) :
  arrivals id js = 0%nat ->
  (runJobs walletUsage js).1 !! id = walletUsage !! id.
Proof. intros Hn. rewrite runJobs_lookup, Hn. reflexivity. Qed.

Lemma quota_identity_scoped_witness :
  let a := Sample.request (HString "0xabc") None in
  let bad := Sample.request (HArray ["0xdef"]) None in
  let js := [Dispatch a; Dispatch a; Dispatch a; Other; Dispatch bad] in
  arrivals "0xdef" js = 0%nat /\
  (runJobs (<["0xdef" := 1]> ∅) js).1 !! "0xdef" = Some 1.
Proof.
  cbv zeta. split; [reflexivity|].
  rewrite (quota_identity_scoped
             [Dispatch (Sample.request (HString "0xabc") None);
              Dispatch (Sample.request (HString "0xabc") None);
              Dispatch (Sample.request (HString "0xabc") None); Other;
              Dispatch (Sample.request (HArray ["0xdef"]) None)]
             (<["0xdef" := 1]> ∅) "0xdef" eq_refl).
  apply lookup_insert_eq.
Defined.

(** X2. From the empty map (a fresh process) the record of an identity is
    absent until its first request and then holds the number of its
    requests, capped at the limit: every stored count lies between 1 and
    the limit. *)
Theorem quota_closed_form (js : list Job) (id : string) :
  (runJobs ∅ js).1 !! id =
    (if (arrivals id js =? 0)%nat then None
     else Some (Z.min (Z.of_nat (arrivals id js)) FREE_TIER_LIMIT)) /\
  (forall v, (runJobs ∅ js).1 !! id = Some v -> 1 <= v <= FREE_TIER_LIMIT).
Proof.
  assert (H : (runJobs ∅ js).1 !! id =
              if (arrivals id js =? 0)%nat then None
              else Some (Z.min (Z.of_nat (arrivals id js)) FREE_TIER_LIMIT)).
  { rewrite runJobs_lookup, lookup_empty. cbn. rewrite orb_false_r.
    destruct (arrivals id js =? 0)%nat; reflexivity. }
  split; [exact H|].
  intros v. rewrite H.
  destruct (Nat.eqb_spec (arrivals id js) 0); [discriminate|].
  intros [= <-]. unfold FREE_TIER_LIMIT. lia.
Qed.

(** X3. The map a schedule leaves behind does not depend on the order of its
    jobs: any reordering of the same jobs ends in the same map. *)
Theorem quota_order_independent (js js' : list Job) (walletUsage : gmap string Z) :
  js ≡ₚ js' ->
  (runJobs walletUsage js).1 = (runJobs walletUsage js').1.
Proof.
  intros Hp. apply map_eq. intros id. rewrite !runJobs_lookup.
  assert (arrivals id js = arrivals id js') as ->; [|reflexivity].
  clear walletUsage.
  induction Hp as [|j js js' _ IH|j1 j2 js|js1 js2 js3 _ IH1 _ IH2]; simpl.
  - reflexivity.
  - destruct j; rewrite IH; reflexivity.
  - destruct j1, j2; lia.
  - congruence.
Qed.

Lemma quota_order_independent_witness :
  let a := Sample.request (HString "0xabc") None in
  let b := Sample.request (HString "0xdef") None in
  (runJobs ∅ [Dispatch a; Dispatch b; Other; Dispatch a]).1 =
  (runJobs ∅ [Dispatch a; Dispatch a; Dispatch b; Other]).1.
Proof.
  cbv zeta. apply quota_order_independent.
  apply Permutation_cons; [reflexivity|].
  symmetry.
  apply (Permutation_cons_append [Dispatch (Sample.request (HString "0xdef") None); Other]).
Defined.

(** X4. A stored count never goes down and a record is never removed: along
    any schedule, and at any point of it, the count of an identity is at
    least what it was before. *)
Theorem quota_never_decreases (js1 js2 : list Job) (walletUsage : gmap string Z)
    (id : string) :
  Js.nullish ((runJobs walletUsage js1).1 !! id) 0 <=
    Js.nullish ((runJobs walletUsage (js1 ++ js2)).1 !! id) 0 /\
  (is_Some ((runJobs walletUsage js1).1 !! id) ->
   is_Some ((runJobs walletUsage (js1 ++ js2)).1 !! id)).
Proof.
  rewrite runJobs_app. cbn [fst].
  generalize (runJobs walletUsage js1).1. intros w.
  rewrite runJobs_lookup. cbn zeta.
  destruct (_ || _) eqn:E; [split; [lia | auto]|].
  apply orb_false_elim in E as [_ E]. apply negb_false_iff, Z.ltb_lt in E.
  split; [|eauto]. cbn [Js.nullish].
  destruct (arrivals id js2); unfold FREE_TIER_LIMIT in *; lia.
Qed.

Lemma runJob_nonneg walletUsage j :
  (forall k v, walletUsage !! k = Some v -> 0 <= v) ->
  forall k v, (runJob walletUsage j).1 !! k = Some v -> 0 <= v.
Proof.
  intros Hst k v. rewrite runJob_lookup.
  destruct j as [req|]; [|apply Hst].
  destruct (_ && _); [|apply Hst].
  intros [= <-]. destruct (walletUsage !! k) as [u|] eqn:E; cbn; [|lia].
  specialize (Hst _ _ E). lia.
Qed.

(** X5. What the requests of a schedule are handed on with, when no stored
    count is negative to begin with: a request let through for free carries
    [freeTier = true] and a [freeTierRemaining] between 0 and the limit
    minus one, and is otherwise unchanged; a request sent to the payment
    middleware is unchanged; only a request whose wallet header is an array
    throws. *)
Theorem log_entries_wellformed (js : list Job) (walletUsage : gmap string Z) :
  (forall k v, walletUsage !! k = Some v -> 0 <= v) ->
  Forall (fun entry : Request * Result Route =>
            match entry.2 with
            | Ok (Next req') =>
                exists n, 0 <= n < FREE_TIER_LIMIT /\
                  req' = mkRequest (x_wallet_address entry.1) (ip entry.1)
                           (remoteAddress entry.1) (body entry.1) (Some true) (Some n)
            | Ok (PaymentMiddlewareFn req') => req' = entry.1
            | Throw _ => exists l, x_wallet_address entry.1 = HArray l
            end)
         (runJobs walletUsage js).2.
Proof.
  revert walletUsage.
  induction js as [|j js IH]; intros walletUsage Hst; [constructor|].
  rewrite runJobs_cons. cbn [snd].
  specialize (IH _ (runJob_nonneg _ j Hst)).
  destruct j as [req|]; [|exact IH].
  cbn [runJob] in *.
  destruct (callerId req) as [id|e] eqn:Hid.
  - rewrite (freemiumGate_unfold _ _ _ Hid) in *. cbn zeta in *.
    destruct (Z.ltb_spec (Js.nullish (walletUsage !! id) 0) FREE_TIER_LIMIT) as [Hlt|Hge];
      cbn [fst snd] in *; constructor; try exact IH; cbn [fst snd]; [|reflexivity].
    exists (FREE_TIER_LIMIT - Js.nullish (walletUsage !! id) 0 - 1).
    split; [|reflexivity].
    destruct (walletUsage !! id) as [u|] eqn:E; cbn in *; [|lia].
    specialize (Hst _ _ E). lia.
  - rewrite (freemiumGate_throw _ _ _ Hid) in *. cbn [fst snd] in *.
    constructor; [|exact IH]. cbn [fst snd].
    unfold callerId, wallet in Hid.
    destruct (x_wallet_address req) as [|h|l]; try discriminate. eauto.
Qed.

Lemma log_entries_wellformed_witness :
  Forall (fun entry : Request * Result Route =>
            match entry.2 with
            | Ok (Next req') =>
                exists n, 0 <= n < FREE_TIER_LIMIT /\
                  req' = mkRequest (x_wallet_address entry.1) (ip entry.1)
                           (remoteAddress entry.1) (body entry.1) (Some true) (Some n)
            | Ok (PaymentMiddlewareFn req') => req' = entry.1
            | Throw _ => exists l, x_wallet_address entry.1 = HArray l
            end)
         (runJobs ∅ [Dispatch (Sample.request (HString "0xabc") None); Other;
                     Dispatch (Sample.request (HArray []) None)]).2.
Proof.
  apply log_entries_wellformed. intros k v. rewrite lookup_empty. discriminate.
Defined.

End Quota.

(** ** Canonical identities *)

Module Identity.

Import Js GateFacts.

Lemma lowerChar_idem c : lowerChar (lowerChar c) = lowerChar c.
Proof. destruct c as [[] [] [] [] [] [] [] []]; reflexivity. Qed.

Lemma toLowerCase_idem s : toLowerCase (toLowerCase s) = toLowerCase s.
Proof. induction s as [|c s IH]; simpl; [reflexivity | now rewrite lowerChar_idem, IH]. Qed.

Lemma trimEnd_cons c s :
  trimEnd (String c s) =
    match trimEnd s with
    | EmptyString => if isWhiteSpace c then EmptyString else String c EmptyString
    | t => String c t
    end.
Proof. reflexivity. Qed.

Lemma trimEnd_idem s : trimEnd (trimEnd s) = trimEnd s.
Proof.
  induction s as [|c s IH]; [reflexivity|]. rewrite trimEnd_cons.
  destruct (trimEnd s) as [|c' t] eqn:E.
  - destruct (isWhiteSpace c) eqn:Ec; [reflexivity|].
    rewrite trimEnd_cons. cbn [trimEnd]. now rewrite Ec.
  - rewrite trimEnd_cons, IH. reflexivity.
Qed.

(** [trimEnd] keeps a first character that is no white space. *)
Lemma trimEnd_head c s :
  isWhiteSpace c = false -> exists t, trimEnd (String c s) = String c t.
Proof.
  intros Hc. rewrite trimEnd_cons. destruct (trimEnd s); [rewrite Hc|]; eauto.
Qed.

Lemma trimStart_head s :
  trimStart s = "" \/ exists c t, trimStart s = String c t /\ isWhiteSpace c = false.
Proof.
  induction s as [|c s IH]; [now left|]. cbn [trimStart].
  destruct (isWhiteSpace c) eqn:Ec; [exact IH|]. right. eauto.
Qed.

Lemma trim_idem s : trim (trim s) = trim s.
Proof.
  unfold trim. destruct (trimStart_head s) as [->|(c & t & -> & Hc)]; [reflexivity|].
  destruct (trimEnd_head c t Hc) as (t' & E).
  assert (trimStart (trimEnd (String c t)) = trimEnd (String c t)) as ->.
  { rewrite E. cbn [trimStart]. now rewrite Hc. }
  apply trimEnd_idem.
Qed.

(** X6. The identity taken from a wallet header is canonical: lower-casing or
    trimming it again changes nothing, and every header that differs from
    the first only in letter case and surrounding white space resolves to the
    same identity, whatever else the request carries; so does the identity
    itself when it is sent as the header. *)
Theorem identity_canonical (req : Request) (h id : string) :
  x_wallet_address req = HString h ->
  trim h <> "" ->
  callerId req = Ok id ->
  toLowerCase id = id /\ trim id = id /\
  (forall req' h',
     x_wallet_address req' = HString h' ->
     toLowerCase (trim h') = toLowerCase (trim h) ->
     callerId req' = Ok id) /\
  (forall req', x_wallet_address req' = HString id -> callerId req' = Ok id).
Proof.
  intros Hh Hne Hid.
  assert (Hcall : forall r x, x_wallet_address r = HString x -> trim x <> "" ->
                    callerId r = Ok (toLowerCase (trim x))).
  { intros r x Hx Hnx.
    destruct (callerId_string r) as (w & _ & Hw & Hc); [rewrite Hx; discriminate|].
    rewrite Hx in Hw. rewrite Hc.
    assert (truthy (Some w) = true) as Ht.
    { apply JsFacts.truthy_Some. rewrite Hw. intros C.
      apply Hnx. now apply JsFacts.toLowerCase_empty. }
    rewrite !(JsFacts.or_truthy (Some w)) by exact Ht. cbn. now rewrite Hw. }
  rewrite (Hcall req h Hh Hne) in Hid. injection Hid as <-.
  assert (Hl : toLowerCase (toLowerCase (trim h)) = toLowerCase (trim h))
    by apply toLowerCase_idem.
  assert (Ht : trim (toLowerCase (trim h)) = toLowerCase (trim h))
    by (rewrite JsFacts.toLowerCase_trim, trim_idem; reflexivity).
  assert (Hv : forall req' h', x_wallet_address req' = HString h' ->
                 toLowerCase (trim h') = toLowerCase (trim h) ->
                 callerId req' = Ok (toLowerCase (trim h))).
  { intros req' h' Hh' E. rewrite <- E. apply Hcall; [exact Hh'|].
    intros C. apply Hne. apply JsFacts.toLowerCase_empty.
    rewrite <- E, C. reflexivity. }
  split; [exact Hl|]. split; [exact Ht|]. split; [exact Hv|].
  intros req' Hh'. apply (Hv req' _ Hh'). now rewrite Ht, Hl.
Qed.

Lemma identity_canonical_witness :
  callerId (Sample.request (HString "0xAbC") None) = Ok "0xabc" /\
  callerId (mkRequest (HString "  0XABC ") None None None None None) = Ok "0xabc".
Proof.
  destruct (identity_canonical (Sample.request (HString "0xAbC") None) "0xAbC" "0xabc"
              eq_refl) as (_ & _ & Hv & _); [discriminate | reflexivity |].
  split; [reflexivity|].
  apply (Hv _ "  0XABC "); reflexivity.
Defined.

End Identity.

(** ** extractUrl and the responses of the handler *)

Module Upstream.

Import Simplescraper.

Lemma extractUrl_ok_true (apiKey : option string) (post : AxiosRequest -> AxiosOutcome)
    (url : string) (options : SimplescraperExtractOptions) (d : SimplescraperExtractResult) :
  extractUrl apiKey post url options = ok_true d <->
  Js.truthy apiKey = true /\
  exists status data,
    post (extractRequest apiKey url options) = Resolved status data /\
    status < 400 /\ d = fields data.
Proof.
  unfold extractUrl. destruct (Js.truthy apiKey); cbn [negb].
  - destruct (post _) as [status data|err].
    + destruct (Z.geb_spec status 400).
      * split; [discriminate|]. intros (_ & st & da & [= <- <-] & Hlt & _). lia.
      * split.
        -- intros [= <-]. split; [reflexivity|]. exists status, data.
           repeat split. lia.
        -- intros (_ & st & da & [= <- <-] & _ & ->). reflexivity.
    + split; [discriminate|]. intros (_ & st & da & H & _). discriminate.
  - split; [discriminate|]. intros [H _]. discriminate.
Qed.

Lemma extractUrl_ok_false_status (apiKey : option string)
    (post : AxiosRequest -> AxiosOutcome) (url : string)
    (options : SimplescraperExtractOptions) (error : string) (status : Z) :
  extractUrl apiKey post url options = ok_false error (Some status) ->
  400 <= status /\
  exists data, post (extractRequest apiKey url options) = Resolved status data.
Proof.
  unfold extractUrl. destruct (Js.truthy apiKey); cbn [negb]; [|discriminate].
  destruct (post _) as [st data|err]; [|discriminate].
  destruct (Z.geb_spec st 400); [|discriminate].
  intros [= _ <-]. split; [lia | eauto].
Qed.

(** X7. [extractUrl] succeeds exactly when an API key is set and the upstream
    answers the one request with a status below 400, and then returns the
    answer's fields; a failure that carries a status carries one of 400 or
    more; the request posted always has [screenshot: false] and never an
    undefined or null flag. *)
Theorem extractUrl_outcomes (apiKey : option string) (post : AxiosRequest -> AxiosOutcome)
    (url : string) (options : SimplescraperExtractOptions) :
  let sent := extractRequest apiKey url options in
  (forall d,
     extractUrl apiKey post url options = ok_true d <->
     Js.truthy apiKey = true /\
     exists status data, post sent = Resolved status data /\ status < 400 /\ d = fields data) /\
  (forall error status,
     extractUrl apiKey post url options = ok_false error (Some status) ->
     400 <= status /\ exists data, post sent = Resolved status data) /\
  req_screenshot sent = false /\
  req_markdown sent <> JUndefined /\ req_markdown sent <> JNull /\
  req_html sent <> JUndefined /\ req_html sent <> JNull.
Proof.
  cbv zeta. split; [|split].
  - intros d. apply extractUrl_ok_true.
  - intros error status. apply extractUrl_ok_false_status.
  - unfold extractRequest, orFalse. cbn.
    repeat split; destruct (opt_markdown options), (opt_html options); discriminate.
Qed.

End Upstream.

Module Responses.

Import ethers Server ServerFacts.

Lemma resume_reads_header_and_body `{L : Library} cfg req req' url extracted Date_now :
  x_wallet_address req = x_wallet_address req' ->
  body req = body req' ->
  resume cfg req url extracted Date_now = resume cfg req' url extracted Date_now.
Proof.
  intros Hh Hb. unfold resume, buildPayload, clientAddressOf. now rewrite Hh, Hb.
Qed.

Lemma runHandler_reads_header_and_body `{L : Library} cfg req req' apiKey post Date_now :
  x_wallet_address req = x_wallet_address req' ->
  body req = body req' ->
  runHandler (scrape cfg req) apiKey post Date_now =
    runHandler (scrape cfg req') apiKey post Date_now.
Proof.
  intros Hh Hb. unfold scrape, urlOf. rewrite Hb.
  destruct (body req') as [b|] eqn:Eb; [|reflexivity].
  destruct (url b) as [| | | |s|]; try reflexivity.
  destruct (Js.trim s); [reflexivity|]. cbn [runHandler].
  apply resume_reads_header_and_body; congruence.
Qed.

(** X8. A request that the gate lets through for free is answered exactly as
    the same request is when it reaches the handler without the gate's
    marks: the handler reads the wallet header and the body, and neither
    [freeTier] nor [freeTierRemaining] (nor the caller's address). *)
Theorem free_pass_same_service `{L : Library} (cfg : Config)
    (walletUsage walletUsage' : gmap string Z) (req req' : Request) (h : Handler) :
  postScrape cfg walletUsage req = Ok (walletUsage', Handled req' h) ->
  forall apiKey post Date_now,
    runHandler h apiKey post Date_now = runHandler (scrape cfg req) apiKey post Date_now.
Proof.
  unfold postScrape, freemiumGate.
  destruct (callerId req) as [id|e]; cbn [mbind Result_bind]; [|discriminate].
  destruct (_ <? _); cbn [mbind Result_bind]; [|discriminate].
  intros [= _ <- <-] apiKey post Date_now.
  apply runHandler_reads_header_and_body; reflexivity.
Qed.

Lemma free_pass_same_service_witness :
  let req := Sample.request (HString Sample.client)
               (Some (Sample.bodyOf (JString "https://example.com") JUndefined)) in
  exists walletUsage' req' h,
    postScrape (H := Sample.library) Sample.offChain ∅ req = Ok (walletUsage', Handled req' h) /\
    freeTier req' = Some true /\
    runHandler h (Some "key")
      (fun _ => Simplescraper.Resolved 200 (Simplescraper.mkAxiosData None Sample.page))
      Sample.clock =
    runHandler (scrape (H := Sample.library) Sample.offChain req) (Some "key")
      (fun _ => Simplescraper.Resolved 200 (Simplescraper.mkAxiosData None Sample.page))
      Sample.clock.
Proof.
  cbv zeta. do 3 eexists. split; [reflexivity|]. split; [reflexivity|].
  eapply (free_pass_same_service (L := Sample.library) Sample.offChain ∅).
  reflexivity.
Defined.

(** X9. Every response of the handler has status 200 or a status of 400 or
    more. A 200 comes only after the upstream answered below 400, and it
    carries the fields of that answer unchanged, with nothing logged; a line
    is logged only with the 500 of the [catch] block. *)
Theorem response_status `{L : Library} (cfg : Config) (req : Request)
    (apiKey : option string)
    (post : Simplescraper.AxiosRequest -> Simplescraper.AxiosOutcome)
    (Date_now : nat -> Z) :
  let out := runHandler (scrape cfg req) apiKey post Date_now in
  (status out.1 = 200 \/ 400 <= status out.1) /\
  (status out.1 = 200 ->
     out.2 = [] /\
     exists url options upstream data payload,
       post (Simplescraper.extractRequest apiKey url options) =
         Simplescraper.Resolved upstream data /\
       upstream < 400 /\
       json out.1 = PayloadJson payload /\
       result payload = Simplescraper.fields data) /\
  (out.2 <> [] -> out.1 = internalError).
Proof.
  cbv zeta. unfold scrape.
  destruct (urlOf req) as [[|c u]|];
    try (cbn; split; [right; lia | split; [discriminate | congruence]]).
  destruct (body req) as [b|];
    [|cbn; split; [right; lia | split; [discriminate | congruence]]].
  cbn [runHandler]. set (options := Simplescraper.mkOptions (markdown b) (html b)).
  destruct (Simplescraper.extractUrl apiKey post (String c u) options) as [d|error st] eqn:E.
  - apply Upstream.extractUrl_ok_true in E as (_ & upstream & data & Hp & Hlt & ->).
    unfold resume.
    destruct (buildPayload cfg req (String c u) (Simplescraper.fields data) Date_now)
      as [payload|e] eqn:Hb.
    + cbn [fst snd status json]. split; [now left|]. split; [|congruence].
      intros _. split; [reflexivity|].
      exists (String c u), options, upstream, data, payload.
      repeat split; try assumption.
      unfold buildPayload in Hb. cbn zeta in Hb.
      destruct (agentWallet cfg) as [w|]; [|now injection Hb as <-].
      destruct (clientAddressOf req) as [[|c' s']|]; try now injection Hb as <-.
      destruct (NUMERIC_AGENT_ID cfg) as [n|]; [|now injection Hb as <-].
      destruct (contractAuth cfg w n (String c' s') (Date_now 1%nat)); [|discriminate].
      now injection Hb as <-.
    + cbn. split; [right; lia|]. split; [discriminate | reflexivity].
  - unfold resume. cbn [fst snd status json]. destruct st as [st|]; cbn [Js.nullish].
    + destruct (Upstream.extractUrl_ok_false_status _ _ _ _ _ _ E) as [Hge _].
      split; [now right|]. split; [lia | congruence].
    + split; [right; lia|]. split; [discriminate | congruence].
Qed.

End Responses.

(** ** The authorization blob without assumptions on the signer *)

Module Blob.

Import ethers Server ServerFacts.

Lemma hexDigits_length bs : String.length (Bytes.hexDigits bs) = (2 * length bs)%nat.
Proof. induction bs as [|b bs IH]; cbn [Bytes.hexDigits String.length length]; lia. Qed.

Lemma hexlify_length bs : String.length (Bytes.hexlify bs) = (2 + 2 * length bs)%nat.
Proof.
  unfold Bytes.hexlify. cbv [append]. cbn [String.length].
  now rewrite hexDigits_length.
Qed.

(** The second [set]: a signature of at most [b] bytes goes in and leaves
    the rest of the array zero; a longer one throws. *)
Lemma set_second (enc sig : list Z) (a b : nat) :
  length enc = a ->
  Bytes.set (enc ++ replicate b 0) sig a =
    if (length sig <=? b)%nat
    then Ok (enc ++ sig ++ replicate (b - length sig) 0)
    else Throw (RangeError "offset is out of bounds").
Proof.
  intros Ha. unfold Bytes.set. rewrite length_app, length_replicate, Ha.
  destruct (Nat.leb_spec (length sig) b) as [Hle|Hgt].
  - destruct (Nat.leb_spec (a + length sig) (a + b)) as [_|]; [|lia].
    f_equal. rewrite take_app_length' by (symmetry; exact Ha).
    rewrite drop_app_ge by lia. rewrite Ha.
    rewrite drop_replicate. do 3 f_equal. lia.
  - destruct (Nat.leb_spec (a + length sig) (a + b)) as [|_]; [lia | reflexivity].
Qed.

Section Signer.
Context `{L : Library}.

Lemma encode_auth_Ok cfg w n client expiry chainId aClient aRegistry aAgent :
  0 <= n < 2 ^ 256 -> 0 <= expiry < 2 ^ 256 -> 0 <= chainId < 2 ^ 256 ->
  getAddress client = Some aClient ->
  getAddress (IDENTITY_REGISTRY cfg) = Some aRegistry ->
  getAddress (address w) = Some aAgent ->
  AbiCoder.encode authTypes (authValues cfg w n client expiry chainId) =
    Ok (authWords n aClient expiry chainId aRegistry aAgent).
Proof.
  intros Hn He Hc H1 H2 H3. unfold authTypes, authValues.
  cbn [AbiCoder.encode AbiCoder.encodeValue]. rewrite H1, H2, H3.
  assert (forall v, 0 <= v < 2 ^ 256 -> (0 <=? v) && (v <? 2 ^ 256) = true) as Hr.
  { intros v Hv. apply andb_true_intro. split; [apply Z.leb_le | apply Z.ltb_lt]; lia. }
  rewrite (Hr _ Hn), (Hr _ He), (Hr _ Hc).
  cbn [mbind Result_bind]. unfold indexLimit at 1 2.
  replace ((0 <=? 1000) && (1000 <? 2 ^ 64)) with true by reflexivity.
  cbn [mbind Result_bind]. unfold authWords, AbiCoder.word, indexLimit.
  now rewrite app_nil_r.
Qed.

Lemma encode_auth_ranges cfg w n client expiry chainId enc :
  AbiCoder.encode authTypes (authValues cfg w n client expiry chainId) = Ok enc ->
  0 <= n < 2 ^ 256 /\ 0 <= expiry < 2 ^ 256 /\ 0 <= chainId < 2 ^ 256.
Proof.
  unfold authTypes, authValues. intros H.
  apply AbiFacts.encode_cons in H as (w1 & r1 & H1 & H & _).
  apply AbiFacts.encode_cons in H as (w2 & r2 & _ & H & _).
  apply AbiFacts.encode_cons in H as (w3 & r3 & _ & H & _).
  apply AbiFacts.encode_cons in H as (w4 & r4 & H4 & H & _).
  apply AbiFacts.encode_cons in H as (w5 & r5 & H5 & _ & _).
  apply AbiFacts.encodeValue_uint in H1 as [? _].
  apply AbiFacts.encodeValue_uint in H4 as [? _].
  apply AbiFacts.encodeValue_uint in H5 as [? _].
  auto.
Qed.

(** The steps of a successful [contractAuth], with the array filled in. *)
Lemma contractAuth_shape cfg w n client now hex :
  contractAuth cfg w n client now = Ok hex ->
  exists chainId aClient aRegistry aAgent sig,
    CHAIN_ID cfg = Some chainId /\
    0 <= n < 2 ^ 256 /\ 0 <= expiryOf now < 2 ^ 256 /\ 0 <= chainId < 2 ^ 256 /\
    getAddress client = Some aClient /\
    getAddress (IDENTITY_REGISTRY cfg) = Some aRegistry /\
    getAddress (address w) = Some aAgent /\
    signMessage w (keccak256 (authWords n aClient (expiryOf now) chainId aRegistry aAgent))
      = Ok sig /\
    (length sig <= 65)%nat /\
    hex = Bytes.hexlify (authWords n aClient (expiryOf now) chainId aRegistry aAgent
                         ++ sig ++ replicate (65 - length sig) 0).
Proof.
  intros H.
  apply contractAuth_Ok in H as (chainId & enc & sig & filled & Hch & Henc & Hsig & Hset & ->).
  pose proof (encode_auth_ranges _ _ _ _ _ _ _ Henc) as (Hn & He & Hc).
  apply encode_auth in Henc as (aClient & aRegistry & aAgent & H1 & H2 & H3 & ->).
  rewrite (BytesFacts.set_first _ 224 65 (authWords_length _ _ _ _ _ _)) in Hset.
  cbn [mbind Result_bind] in Hset.
  rewrite (set_second _ sig 224 65 (authWords_length _ _ _ _ _ _)) in Hset.
  destruct (Nat.leb_spec (length sig) 65) as [Hle|]; [|discriminate].
  injection Hset as <-.
  exists chainId, aClient, aRegistry, aAgent, sig. repeat split; assumption || lia.
Qed.

End Signer.

(** X10. [contractAuth] returns a blob exactly when the chain id is a number,
    the agent id, the expiry and the chain id fit 256 bits, the client, the
    registry and the signer address are addresses, and the signer returns at
    most 65 bytes; the blob is then the seven words, the signature and zero
    bytes up to 289. In every other case it throws (and the handler answers
    500). *)
Theorem contractAuth_succeeds_iff `{L : Library} (cfg : Config) (w : Wallet) (n : Z)
    (client : string) (now : Z) (hex : string) :
  contractAuth cfg w n client now = Ok hex <->
  exists chainId aClient aRegistry aAgent sig,
    CHAIN_ID cfg = Some chainId /\
    0 <= n < 2 ^ 256 /\ 0 <= now / 1000 + 3600 < 2 ^ 256 /\ 0 <= chainId < 2 ^ 256 /\
    getAddress client = Some aClient /\
    getAddress (IDENTITY_REGISTRY cfg) = Some aRegistry /\
    getAddress (address w) = Some aAgent /\
    signMessage w
      (keccak256 (authWords n aClient (now / 1000 + 3600) chainId aRegistry aAgent))
      = Ok sig /\
    (length sig <= 65)%nat /\
    hex = Bytes.hexlify (authWords n aClient (now / 1000 + 3600) chainId aRegistry aAgent
                         ++ sig ++ replicate (65 - length sig) 0).
Proof.
  change (now / 1000 + 3600) with (expiryOf now).
  split; [apply contractAuth_shape|].
  intros (chainId & aClient & aRegistry & aAgent & sig &
          Hch & Hn & He & Hc & H1 & H2 & H3 & Hsig & Hle & ->).
  unfold contractAuth. cbn zeta. rewrite Hch. cbn [BigInt mbind Result_bind].
  rewrite (encode_auth_Ok _ _ _ _ _ _ _ _ _ Hn He Hc H1 H2 H3).
  cbn [mbind Result_bind]. rewrite Hsig. cbn [mbind Result_bind].
  rewrite (BytesFacts.set_first _ 224 65 (ServerFacts.authWords_length _ _ _ _ _ _)).
  cbn [mbind Result_bind].
  rewrite (set_second _ sig 224 65 (ServerFacts.authWords_length _ _ _ _ _ _)).
  destruct (Nat.leb_spec (length sig) 65) as [_|]; [reflexivity | lia].
Qed.

(** X11. Whatever the signer returns, a blob that is produced is the text
    "0x" followed by 578 hexadecimal digits: 289 bytes, 580 characters. *)
Theorem blob_is_580_characters `{L : Library} (cfg : Config) (w : Wallet) (n : Z)
    (client : string) (now : Z) (hex : string) :
  contractAuth cfg w n client now = Ok hex ->
  String.length hex = 580%nat /\
  exists blob, hex = "0x" +:+ Bytes.hexDigits blob /\ length blob = 289%nat.
Proof.
  intros H. apply contractAuth_shape in H
    as (chainId & aClient & aRegistry & aAgent & sig & _ & _ & _ & _ & _ & _ & _ & _ & Hle & ->).
  assert (Hlen : length (authWords n aClient (expiryOf now) chainId aRegistry aAgent
                         ++ sig ++ replicate (65 - length sig) 0) = 289%nat).
  { rewrite !length_app, authWords_length, length_replicate. lia. }
  split; [rewrite hexlify_length, Hlen; reflexivity|].
  eexists. split; [reflexivity | exact Hlen].
Qed.

Lemma blob_is_580_characters_witness :
  exists hex,
    contractAuth (H := Sample.library) Sample.onChain Sample.agent 1 Sample.client
                 (Sample.clock 1%nat) = Ok hex /\
    String.length hex = 580%nat.
Proof.
  eexists. split; [reflexivity|].
  apply (blob_is_580_characters (L := Sample.library) Sample.onChain Sample.agent 1
           Sample.client (Sample.clock 1%nat) _ eq_refl).
Defined.

End Blob.

(** ** The MCP tool and the plain handler *)

Module Routes.

Import Server.


(** X13. The two routes post the same request when both flags are given as
    booleans, and different ones when both are left out: the HTTP handler
    then asks for neither markdown nor HTML, the MCP tool asks for
    markdown. *)
Theorem routes_post_same_request_but_defaults `{L : ethers.Library}
    (cfg : Config) (req : Request) (b : Body) (url : string)
    (options : Simplescraper.SimplescraperExtractOptions)
    (k : Simplescraper.ExtractOutcome -> (nat -> Z) -> Response * list LogLine)
    (apiKey : option string) :
  scrape cfg req = AwaitExtractUrl url options k ->
  body req = Some b ->
  (forall m h, markdown b = JBoolean m -> html b = JBoolean h ->
     Simplescraper.extractRequest apiKey url options =
       Simplescraper.extractRequest apiKey url (Mcp.toolOptions (Some m) (Some h))) /\
  (markdown b = JUndefined -> html b = JUndefined ->
     Simplescraper.req_markdown (Simplescraper.extractRequest apiKey url options) = JBoolean false /\
     Simplescraper.req_html (Simplescraper.extractRequest apiKey url options) = JBoolean false /\
     Simplescraper.req_markdown (Simplescraper.extractRequest apiKey url (Mcp.toolOptions None None)) = JBoolean true /\
     Simplescraper.extractRequest apiKey url options <>
       Simplescraper.extractRequest apiKey url (Mcp.toolOptions None None)).
Proof.
  intros Hs Hb. unfold scrape in Hs. rewrite Hb in Hs.
  destruct (urlOf req) as [[|c u]|]; try discriminate.
  injection Hs as <- <- _. unfold Simplescraper.extractRequest, Mcp.toolOptions. cbn.
  split.
  - intros m h -> ->. reflexivity.
  - intros -> ->. cbn. repeat split. discriminate.
Qed.

Lemma routes_post_same_request_but_defaults_witness :
  let req := Sample.request HUndefined
               (Some (Sample.bodyOf (JString "https://example.com") JUndefined)) in
  Simplescraper.req_markdown (Simplescraper.extractRequest (Some "key") "https://example.com"
                  (Simplescraper.mkOptions JUndefined JUndefined)) = JBoolean false /\
  Simplescraper.req_markdown (Simplescraper.extractRequest (Some "key") "https://example.com"
                  (Mcp.toolOptions None None)) = JBoolean true.
Proof.
  cbv zeta.
  destruct (routes_post_same_request_but_defaults (L := Sample.library) Sample.onChain
              (Sample.request HUndefined
                 (Some (Sample.bodyOf (JString "https://example.com") JUndefined)))
              (Sample.bodyOf (JString "https://example.com") JUndefined)
              "https://example.com" (Simplescraper.mkOptions JUndefined JUndefined) _
              (Some "key") eq_refl eq_refl) as [_ H].
  destruct (H eq_refl eq_refl) as (H1 & _ & H3 & _).
  split; [exact H1 | exact H3].
Defined.

(** X14. With the attestation out of play (no signer key, or no client
    address in the request) the handler answers a request that has a URL
    exactly as the handler without feedback authorization does, for every
    upstream and clock; the two also agree on every failed extraction. *)
Theorem attestation_off_is_plain `{L : ethers.Library} (cfg : Config) (req : Request)
    (apiKey : option string) (post : Simplescraper.AxiosRequest -> Simplescraper.AxiosOutcome) (Date_now : nat -> Z) :
  Js.truthy (urlOf req) = true ->
  (agentWallet cfg = None \/ Js.truthy (clientAddressOf req) = false ->
     runHandler (scrape cfg req) apiKey post Date_now =
       runHandler (Plain.scrape req) apiKey post Date_now) /\
  (forall url options k error status,
     scrape cfg req = AwaitExtractUrl url options k ->
     Simplescraper.extractUrl apiKey post url options = Simplescraper.ok_false error status ->
     runHandler (scrape cfg req) apiKey post Date_now =
       runHandler (Plain.scrape req) apiKey post Date_now).
Proof.
  intros Hu. unfold scrape, Plain.scrape.
  destruct (urlOf req) as [[|c u]|] eqn:E; try discriminate.
  assert (exists b, body req = Some b) as [b Hb].
  { unfold urlOf in E. destruct (body req); [eauto | discriminate]. }
  rewrite Hb. cbn [runHandler]. split.
  - intros Hoff. unfold resume, Plain.resume.
    destruct (Simplescraper.extractUrl _ _ _ _) as [data|error status]; [|reflexivity].
    now rewrite (ServerFacts.buildPayload_plain _ _ _ _ _ Hoff).
  - intros url options k error status [= <- <- _] He. rewrite He. reflexivity.
Qed.

Lemma attestation_off_is_plain_witness :
  let req := Sample.request (HString Sample.client)
               (Some (Sample.bodyOf (JString "https://example.com") JUndefined)) in
  let post := fun _ : Simplescraper.AxiosRequest => Simplescraper.Resolved 200 (Simplescraper.mkAxiosData None Sample.page) in
  runHandler (scrape (H := Sample.library) Sample.unsigned req) (Some "key") post Sample.clock =
    runHandler (Plain.scrape req) (Some "key") post Sample.clock.
Proof.
  cbv zeta.
  apply (proj1 (attestation_off_is_plain (L := Sample.library) Sample.unsigned
                  (Sample.request (HString Sample.client)
                     (Some (Sample.bodyOf (JString "https://example.com") JUndefined)))
                  (Some "key")
                  (fun _ => Simplescraper.Resolved 200 (Simplescraper.mkAxiosData None Sample.page))
                  Sample.clock eq_refl)).
  left. reflexivity.
Defined.

End Routes.

(** ** The CID to register *)

Module Cid.

Import AgentCard.

Lemma indexOf_app (x : string) (pre rest : list string) :
  x ∉ pre -> indexOf x (pre ++ x :: rest) = Z.of_nat (length pre).
Proof.
  induction pre as [|y pre IH]; intros Hni.
  - cbn. now rewrite String.eqb_refl.
  - apply not_elem_of_cons in Hni as [Hne Hni].
    cbn [app indexOf length]. rewrite (IH Hni).
    destruct (String.eqb_spec y x) as [->|_]; [congruence|].
    destruct (Z.ltb_spec (Z.of_nat (length pre)) 0); lia.
Qed.

Lemma indexOf_absent (x : string) (args : list string) :
  x ∉ args -> indexOf x args = -1.
Proof.
  induction args as [|y args IH]; intros Hni; [reflexivity|].
  apply not_elem_of_cons in Hni as [Hne Hni].
  cbn [indexOf]. rewrite (IH Hni).
  destruct (String.eqb_spec y x) as [->|_]; [congruence | reflexivity].
Qed.

Lemma nextArg_after (x : string) (pre rest : list string) :
  x ∉ pre ->
  at_index (pre ++ x :: rest) (indexOf x (pre ++ x :: rest) + 1) = rest !! 0%nat.
Proof.
  intros Hni. rewrite (indexOf_app _ _ _ Hni). unfold at_index.
  destruct (Z.ltb_spec (Z.of_nat (length pre) + 1) 0); [lia|].
  replace (Z.to_nat (Z.of_nat (length pre) + 1)) with (length pre + 1)%nat by lia.
  rewrite lookup_app_r by lia.
  replace (length pre + 1 - length pre)%nat with 1%nat by lia. reflexivity.
Qed.

Lemma startsWith_append (p s : string) : startsWith p (p +:+ s) = true.
Proof.
  unfold startsWith. induction p as [|c p IH]; [now destruct s|].
  cbn [append String.prefix]. change (String c p +:+ s) with (String c (p +:+ s)).
  cbn [String.prefix]. destruct (ascii_dec c c); [exact IH | congruence].
Qed.

Lemma slice_prefix (p s : string) : slice (String.length p) (p +:+ s) = s.
Proof. induction p as [|c p IH]; [now destruct s | exact IH]. Qed.

(** X15. The CID [--register] works on. An argument after the first
    [--register] that is not empty and no option is the CID, minus one
    leading "cid=", whatever the CID file holds. So [--register cid=X]
    gives [X] for every [X]; [--register X] gives [X] when [X] is not empty
    and starts with neither "--" nor "cid=", and [X] without its leading
    "cid=" when it starts with "cid=". When [--register] is last, or is
    followed by an empty argument or an option, the CID is the trimmed
    content of the CID file, and without the file the process exits with
    code 1. *)
Theorem getCidForRegister_sources (pre rest : list string) (x : string)
    (cidFile : option string) :
  "--register" ∉ pre ->
  (x <> "" -> startsWith "--" x = false ->
     getCidForRegister (pre ++ "--register" :: x :: rest) cidFile =
       Return (if startsWith "cid=" x then slice 4 x else x)) /\
  getCidForRegister (pre ++ "--register" :: ("cid=" +:+ x) :: rest) cidFile = Return x /\
  (x <> "" -> startsWith "--" x = false -> startsWith "cid=" x = false ->
     getCidForRegister (pre ++ "--register" :: x :: rest) cidFile = Return x) /\
  (forall y,
     x = "cid=" +:+ y ->
     getCidForRegister (pre ++ "--register" :: x :: rest) cidFile = Return y) /\
  (rest !! 0%nat = None \/ rest !! 0%nat = Some "" \/
   (exists o, rest !! 0%nat = Some o /\ startsWith "--" o = true) ->
     getCidForRegister (pre ++ "--register" :: rest) cidFile =
       match cidFile with
       | Some text => Return (Js.trim text)
       | None => Exit 1
       end).
Proof.
  intros Hni.
  assert (Hexp : forall y, y <> "" -> startsWith "--" y = false ->
            getCidForRegister (pre ++ "--register" :: y :: rest) cidFile =
              Return (if startsWith "cid=" y then slice 4 y else y)).
  { intros y Hy Hopt. unfold getCidForRegister. cbn zeta.
    rewrite (nextArg_after _ _ _ Hni). cbn [lookup list_lookup Js.nullish].
    destruct y; [congruence|]. cbn [Js.truthy andb]. rewrite Hopt. reflexivity. }
  assert (Hcid : forall y,
            getCidForRegister (pre ++ "--register" :: ("cid=" +:+ y) :: rest) cidFile =
              Return y).
  { intros y. rewrite Hexp; [|discriminate|reflexivity].
    rewrite startsWith_append. reflexivity. }
  split; [exact (Hexp x)|]. split; [exact (Hcid x)|]. split; [|split].
  - intros Hx Hopt Hno. rewrite (Hexp x Hx Hopt), Hno. reflexivity.
  - intros y ->. apply Hcid.
  - intros H. unfold getCidForRegister. cbn zeta.
    rewrite (nextArg_after _ _ _ Hni).
    destruct H as [->|[->|(o & -> & Ho)]]; cbn [Js.truthy Js.nullish andb];
      try reflexivity.
    destruct o; [reflexivity|]. cbn [Js.truthy andb]. rewrite Ho. reflexivity.
Qed.

Lemma getCidForRegister_sources_witness :
  getCidForRegister ["--register"; "cid=bafy123"] (Some "other") = Return "bafy123" /\
  getCidForRegister ["--register"; "bafy123"] (Some "other") = Return "bafy123" /\
  getCidForRegister ["--register"; "cid=cid=x"] None = Return "cid=x" /\
  getCidForRegister ["--register"; "--verbose"] None = Exit 1.
Proof.
  destruct (getCidForRegister_sources [] [] "bafy123" (Some "other"))
    as (_ & H1 & Hplain & _); [apply not_elem_of_nil|].
  destruct (getCidForRegister_sources [] [] "cid=x" None)
    as (_ & H3 & _); [apply not_elem_of_nil|].
  destruct (getCidForRegister_sources [] ["--verbose"] "" None)
    as (_ & _ & _ & _ & Hfile); [apply not_elem_of_nil|].
  split; [exact H1|].
  split; [exact (Hplain ltac:(discriminate) eq_refl eq_refl)|].
  split; [exact H3|].
  apply Hfile. right. right. exists "--verbose". split; reflexivity.
Defined.

End Cid.
